(** * AppVector MCP gateway: handlers and dispatcher

    A shallow embedding of the TypeScript sources [handlers/base.ts],
    the concrete handlers under [handlers/] and the tool-call dispatcher
    of [index.ts], together with the properties the specification states
    about them.

    JavaScript strings are modelled as byte strings (their UTF-8
    encoding) and argument values as strings or lists of strings, the two
    kinds of value the tool schemas declare; the argument bag of a call is
    always present. A [Date] is its local calendar day, and date
    arithmetic goes through the time zone of the process. The outbound
    transport is an oracle whose calls are logged, so that a property can
    say which requests a call issues, and a thrown value is either an
    [Error] object or something else. *)

From Stdlib Require Import ZArith Ascii String List Lia.
From stdpp Require Import base strings gmap list pretty.

Open Scope string_scope.
Open Scope Z_scope.

(** ** JavaScript values held by an argument bag *)

(** An argument is a string or a list of strings; an omitted argument is
    [undefined], modelled as [None] wherever a value may be missing. *)
Inductive value : Type :=
  | VStr (s : string)
  | VArr (items : list string).

#[global] Instance value_eq_dec : EqDecision value.
Proof. solve_decision. Defined.

(** [ToBoolean]: [undefined] and the empty string are falsy; every other
    string and every array (even the empty one) is truthy. *)
Definition truthy (v : option value) : bool :=
  match v with
  | None => false
  | Some (VStr s) => negb (String.eqb s "")
  | Some (VArr _) => true
  end.

(** Destructuring default [{ x = d } = args]: the default replaces
    [undefined] only. *)
Definition or_default (v : option value) (d : string) : value :=
  match v with
  | None => VStr d
  | Some x => x
  end.

(** [a || b] where [b] is a string. *)
Definition js_or (a : option value) (b : string) : option value :=
  if truthy a then a else Some (VStr b).

(** [ToString]: an array renders as its items joined by commas. *)
Definition ToString (v : value) : string :=
  match v with
  | VStr s => s
  | VArr items => String.concat "," items
  end.

(** [Array.isArray]. *)
Definition isArray (v : option value) : bool :=
  match v with
  | Some (VArr _) => true
  | _ => false
  end.

(** [xs.length === 0] on a value known to be an array. *)
Definition length_is_zero (v : option value) : bool :=
  match v with
  | Some (VArr nil) => true
  | _ => false
  end.

(** [list.includes(v)] for a list of string literals: strict equality,
    so an array is never included. *)
Definition includes (allowed : list string) (v : value) : bool :=
  match v with
  | VStr s => existsb (String.eqb s) allowed
  | VArr _ => false
  end.

(** An object literal is kept as the list [Object.entries] yields: the
    keys in insertion order. *)
Definition object : Type := list (string * option value).

(** [o.k = v]: overwrite in place, or add the key at the end. *)
Fixpoint obj_set (k : string) (v : option value) (o : object) : object :=
  match o with
  | nil => (k, v) :: nil
  | (k', v') :: rest =>
      if String.eqb k' k then (k, v) :: rest else (k', v') :: obj_set k v rest
  end.

(** ** Dates *)

(** A [Date] is modelled by the local calendar day of its time value,
    counted from 1970-01-01, which is all that the getters of the handlers
    read. Every [Date] a handler builds is the reading of the clock or a
    copy of it, so the time within the day is that of the clock; it is
    kept with the time zone, in [LocalClock] below. *)
Record Date : Type := mkDate { localDay : Z }.

(** Year, month (1..12) and day of month of a day number. *)
Definition civil_of_day (z : Z) : Z * Z * Z :=
  let z := z + 719468 in
  let era := z / 146097 in
  let doe := z mod 146097 in
  let yoe := (doe - doe / 1460 + doe / 36524 - doe / 146096) / 365 in
  let y := yoe + era * 400 in
  let doy := doe - (365 * yoe + yoe / 4 - yoe / 100) in
  let mp := (5 * doy + 2) / 153 in
  let d := doy - (153 * mp + 2) / 5 + 1 in
  let m := if mp <? 10 then mp + 3 else mp - 9 in
  (if m <=? 2 then y + 1 else y, m, d).

(** Day number of a year, month (1..12) and day of month. *)
Definition day_of_civil (y m d : Z) : Z :=
  let y := if m <=? 2 then y - 1 else y in
  let era := y / 400 in
  let yoe := y mod 400 in
  let doy := (153 * (if 2 <? m then m - 3 else m + 9) + 2) / 5 + d - 1 in
  let doe := yoe * 365 + yoe / 4 - yoe / 100 + doy in
  era * 146097 + doe - 719468.

Definition getFullYear (t : Date) : Z := (civil_of_day (localDay t)).1.1.

(** Months are numbered from 0. *)
Definition getMonth (t : Date) : Z := (civil_of_day (localDay t)).1.2 - 1.

Definition getDate (t : Date) : Z := (civil_of_day (localDay t)).2.

(** [MakeDay(year, month, date)] of the language standard: the month may
    lie outside 0..11 and the date outside the month; both carry over. *)
Definition MakeDay (year month date : Z) : Z :=
  day_of_civil (year + month / 12) (month mod 12 + 1) 1 + date - 1.

Definition msPerDay : Z := 86400000.

(** The time zone of the process and the time of day of the clock, in
    milliseconds. [LocalTZA t true] is the offset of local time from UTC
    at the instant [t]; [LocalTZA t false] is the offset by which the
    local time value [t] is read, which for a local time that a
    transition skips is the offset in force before the transition.
    [clockTime] is the local time of day at which the clock is read; only
    its remainder modulo a day is used. *)
Class LocalClock : Type := {
  LocalTZA : Z -> bool -> Z;
  clockTime : Z
}.

(** [Day], [MakeDate], [LocalTime] and [UTC] of the language standard. *)
Definition Day (t : Z) : Z := t / msPerDay.

Definition MakeDate (day time : Z) : Z := day * msPerDay + time.

Definition LocalTime `{LocalClock} (t : Z) : Z := t + LocalTZA t true.

Definition UTC `{LocalClock} (t : Z) : Z := t - LocalTZA t false.

(** [t.setDate(dt)] keeps the year and month of [t] and the time within
    the day and replaces the day of month, which may be zero or negative;
    the local time so made is turned into a time value with [UTC], and
    the date reads it back with [LocalTime]. *)
Definition setDate `{LocalClock} (t : Date) (dt : Z) : Date :=
  let newDate :=
    MakeDate (MakeDay (getFullYear t) (getMonth t) dt) (clockTime mod msPerDay) in
  let u := UTC newDate in
  mkDate (Day (LocalTime u)).

(** The date of a calendar day, for writing down concrete clocks. *)
Definition date_of (y m d : Z) : Date := mkDate (day_of_civil y m d).

(** ** Strings *)

Fixpoint repeat_string (k : nat) (fill : string) : string :=
  match k with
  | O => ""
  | S k' => fill +:+ repeat_string k' fill
  end.

(** [s.padStart(n, fill)]. *)
Definition padStart (n : nat) (fill : string) (s : string) : string :=
  let len := String.length s in
  if (n <=? len)%nat || String.eqb fill "" then s
  else substring 0 (n - len) (repeat_string (n - len) fill) +:+ s.

(** [String(n)] for an integer. *)
Definition String_of_int (n : Z) : string := pretty n.

(** The two decimal digits of a number below 100, for stating how months
    and days are rendered. *)
Definition two_digits (n : Z) : string :=
  String (ascii_of_N (48 + Z.to_N (n / 10)))
    (String (ascii_of_N (48 + Z.to_N (n mod 10))) "").

(** ** BaseHandler: dates and query strings *)

Module DateRange.
Record t : Type := mk { start_date : string; end_date : string }.
End DateRange.

Definition formatDate (date : Date) : string :=
  let year := getFullYear date in
  let month := padStart 2 "0" (String_of_int (getMonth date + 1)) in
  let day := padStart 2 "0" (String_of_int (getDate date)) in
  String_of_int year +:+ "-" +:+ month +:+ "-" +:+ day.

(** [today] is the value of [new Date()] at the call. *)
Definition getDefaultDateRange `{LocalClock} (today : Date) : DateRange.t :=
  let thirtyDaysAgo := today in
  let thirtyDaysAgo := setDate thirtyDaysAgo (getDate thirtyDaysAgo - 30) in
  {| DateRange.start_date := formatDate thirtyDaysAgo;
     DateRange.end_date := formatDate today |}.


(** *** Query strings *)

(** A [URLSearchParams] object: its list of name/value pairs. *)
Definition URLSearchParams : Type := list (string * string).

Definition hex_upper (n : N) : ascii :=
  if (n <? 10)%N then ascii_of_N (48 + n) else ascii_of_N (55 + n).

(** Bytes the form-urlencoded serializer leaves alone: ASCII letters and
    digits and the four marks [* - . _]. *)
Definition form_safe (c : ascii) : bool :=
  let n := N_of_ascii c in
  ((48 <=? n) && (n <=? 57) || (65 <=? n) && (n <=? 90)
   || (97 <=? n) && (n <=? 122)
   || (n =? 42) || (n =? 45) || (n =? 46) || (n =? 95))%N.

Definition form_encode_byte (c : ascii) : string :=
  let n := N_of_ascii c in
  if form_safe c then String c ""
  else if (n =? 32)%N then "+"
  else String "%" (String (hex_upper (n / 16)) (String (hex_upper (n mod 16)) "")).

Fixpoint form_encode (s : string) : string :=
  match s with
  | EmptyString => ""
  | String c rest => form_encode_byte c +:+ form_encode rest
  end.

(** [queryParams.toString()]: [name=value] pairs joined by [&]. *)
Definition URLSearchParams_toString (queryParams : URLSearchParams) : string :=
  String.concat "&"
    (map (fun kv => form_encode kv.1 +:+ "=" +:+ form_encode kv.2) queryParams).

(** The test [value !== undefined && value !== ''] of the loop: strict
    inequality, so only the empty string itself equals [''] . *)
Definition is_sent (v : option value) : bool :=
  match v with
  | None => false
  | Some (VStr s) => negb (String.eqb s "")
  | Some (VArr _) => true
  end.

(** The loop of [buildQueryString] over [Object.entries(params)];
    [append] renders a value with [ToString]. *)
Fixpoint append_entries (entries : object) (queryParams : URLSearchParams)
  : URLSearchParams :=
  match entries with
  | nil => queryParams
  | (key, v) :: rest =>
      match v with
      | Some x =>
          if is_sent v
          then append_entries rest (queryParams ++ [(key, ToString x)])%list
          else append_entries rest queryParams
      | None => append_entries rest queryParams
      end
  end.

Definition buildQueryString (params : object) : string :=
  let queryParams := append_entries params [] in
  let queryString := URLSearchParams_toString queryParams in
  if negb (String.eqb queryString "") then "?" +:+ queryString else "".

(** One step of the loop, as a partial map on entries. *)
Definition sent_pair (kv : string * option value) : option (string * string) :=
  match kv.2 with
  | Some x => if is_sent kv.2 then Some (kv.1, ToString x) else None
  | None => None
  end.

(** The name/value pairs a parameter object contributes to the outbound
    query: what the loop of [buildQueryString] appends. *)
Definition NormalizedQuery (params : object) : URLSearchParams :=
  append_entries params [].

(** [queryParams.get(name)]: the first value under a name. *)
Fixpoint URLSearchParams_get (name : string) (queryParams : URLSearchParams)
  : option string :=
  match queryParams with
  | nil => None
  | (k, v) :: rest => if String.eqb k name then Some v else URLSearchParams_get name rest
  end.

(** A parameter object of the declared type
    [Record<string, string | undefined>]. *)
Definition typed_params (p : list (string * option string)) : object :=
  (fun kv : string * option string => (kv.1, VStr <$> kv.2)) <$> p.

(** ** Effects: thrown values and the log of outbound requests *)

(** A thrown value is an [Error] object with its message or anything
    else, kept as what [String(error)] renders. *)
Inductive thrown : Type :=
  | ErrorObject (message : string)
  | NonError (rendered : string).

(** [error instanceof Error ? error.message : String(error)]. *)
Definition message_of (error : thrown) : string :=
  match error with
  | ErrorObject message => message
  | NonError rendered => rendered
  end.

Inductive completion (A : Type) : Type :=
  | Normal (a : A)
  | Abrupt (e : thrown).
Arguments Normal {A} a.
Arguments Abrupt {A} e.

Record Request : Type := mkRequest {
  url : string;
  method : string;
  headers : list (string * string);
  body : option string
}.

(** A computation yields the requests it issued, in order, and how it
    completed. *)
Definition M (A : Type) : Type := list Request * completion A.

Definition ret {A} (a : A) : M A := ([], Normal a).

Definition throw {A} (e : thrown) : M A := ([], Abrupt e).

Definition bind {A B} (m : M A) (k : A -> M B) : M B :=
  match m with
  | (log, Normal a) => let (log', r) := k a in ((log ++ log')%list, r)
  | (log, Abrupt e) => (log, Abrupt e)
  end.

(** [try { m } catch (error) { handler error }]. *)
Definition try_catch {A} (m : M A) (handler : thrown -> M A) : M A :=
  match m with
  | (log, Normal a) => (log, Normal a)
  | (log, Abrupt e) => let (log', r) := handler e in ((log ++ log')%list, r)
  end.

(** Awaiting a promise that settles without touching the network. *)
Definition await {A} (c : completion A) : M A := ([], c).

Notation "'let!' x ':=' m 'in' k" := (bind m (fun x => k))
  (at level 10, x name, m at level 100, k at level 200).

Definition requests {A} (m : M A) : list Request := m.1.

Definition outcome {A} (m : M A) : completion A := m.2.

(** ** Response envelopes *)

Record ContentBlock : Type := mkBlock { type : string; text : string }.

Record Envelope : Type := mkEnvelope { content : list ContentBlock }.

(** [{ content: [ { type: 'text', text } ] }]. *)
Definition text_envelope (t : string) : Envelope :=
  {| content := [ {| type := "text"; text := t |} ] |}.

(** ** JSON text of a request body *)

Definition dquote : string := String "034"%char "".

Definition hex_lower (n : N) : ascii :=
  if (n <? 10)%N then ascii_of_N (48 + n) else ascii_of_N (87 + n).

Definition json_escape_byte (c : ascii) : string :=
  let n := N_of_ascii c in
  if (n =? 34)%N then "\" +:+ dquote
  else if (n =? 92)%N then "\\"
  else if (n =? 8)%N then "\b"
  else if (n =? 9)%N then "\t"
  else if (n =? 10)%N then "\n"
  else if (n =? 12)%N then "\f"
  else if (n =? 13)%N then "\r"
  else if (n <? 32)%N
       then "\u00" +:+ String (hex_lower (n / 16)) (String (hex_lower (n mod 16)) "")
  else String c "".

Fixpoint json_escape (s : string) : string :=
  match s with
  | EmptyString => ""
  | String c rest => json_escape_byte c +:+ json_escape rest
  end.

Definition json_string (s : string) : string := dquote +:+ json_escape s +:+ dquote.

Definition json_value (v : value) : string :=
  match v with
  | VStr s => json_string s
  | VArr items => "[" +:+ String.concat "," (map json_string items) +:+ "]"
  end.

(** [JSON.stringify] of an object literal: a property whose value is
    [undefined] is left out. *)
Definition JSON_stringify_object (o : object) : string :=
  "{" +:+ String.concat ","
            (omap (fun kv : string * option value =>
                     (fun v => json_string kv.1 +:+ ":" +:+ json_value v) <$> kv.2) o)
      +:+ "}".

(** ** The transport as seen by the handlers *)

(** What the handlers read of a [Response]; [text()] and [json()] are
    promises that may reject. *)
Record Response (JsonValue : Type) : Type := mkResponse {
  ok : bool;
  status : Z;
  statusText : string;
  response_text : completion string;
  response_json : completion JsonValue
}.
Arguments mkResponse {JsonValue}.
Arguments ok {JsonValue}.
Arguments status {JsonValue}.
Arguments statusText {JsonValue}.
Arguments response_text {JsonValue}.
Arguments response_json {JsonValue}.

Inductive FetchOutcome (JsonValue : Type) : Type :=
  | Rejects (e : thrown)
  | Resolves (response : Response JsonValue).
Arguments Rejects {JsonValue}.
Arguments Resolves {JsonValue}.

(** ** The tool catalog of [index.ts]: names and required arguments *)

Record ToolDescriptor : Type := mkTool {
  tool_name : string;
  required : list string
}.

Definition tools : list ToolDescriptor :=
  [ mkTool "appvector_apple_metadata" ["app"];
    mkTool "appvector_apple_rank" ["app"];
    mkTool "appvector_android_metadata" ["app"];
    mkTool "appvector_android_rank" ["app"];
    mkTool "appvector_keyword_research" ["keywords"];
    mkTool "appvector_apple_reviews" ["app"];
    mkTool "appvector_android_reviews" ["app"];
    mkTool "appvector_apple_keyword_rank" ["app"; "keywords"];
    mkTool "appvector_android_keyword_rank" ["app"; "keywords"];
    mkTool "appvector_user_jobs" [] ].

Definition tool_names : list string := map tool_name tools.

(** The tools whose contract requires [app]. *)
Definition app_tools : list string :=
  map tool_name (filter (fun t => bool_decide ("app" ∈ required t)) tools).

(** ** The gateway, relative to its surroundings

    The surroundings of one tool call are the JSON values of the
    transport library with their pretty printer, the transport itself,
    the clock, and the process environment. *)

Class Surroundings : Type := {
  JsonValue : Type;
  (** [JSON.stringify(result, null, 2)]. *)
  JSON_stringify : JsonValue -> string;
  (** The transport: how the upstream answers a request. *)
  upstream : Request -> FetchOutcome JsonValue;
  (** The value of [new Date()] during the call, with the time zone it
      is read in. *)
  clock : Date;
  local_clock :: LocalClock;
  (** [process.env.APPVECTOR_TOKEN]. *)
  APPVECTOR_TOKEN : option string
}.

Section Gateway.

Context {surroundings : Surroundings}.

(** [await fetch(url, init)]: the request is issued, then the promise
    settles. *)
Definition fetch (request : Request) : M (Response JsonValue) :=
  ([request],
   match upstream request with
   | Rejects e => Abrupt e
   | Resolves response => Normal response
   end).

(** *** BaseHandler *)

Record BaseHandler : Type := new_BaseHandler { apiUrl : string; apiToken : string }.

Definition fetchApi (this : BaseHandler) (endpoint : string) (queryParams : object)
  : M JsonValue :=
  let url := apiUrl this +:+ endpoint +:+ buildQueryString queryParams in
  let headers :=
    [("Accept", "application/json"); ("Content-Type", "application/json")] in
  let headers :=
    if negb (String.eqb (apiToken this) "")
    then (headers ++ [("Authorization", "Token " +:+ apiToken this)])%list
    else headers in
  try_catch
    (let! response :=
       fetch {| url := url; method := "GET"; headers := headers; body := None |} in
     if negb (ok response) then
       let! errorText := await (response_text response) in
       throw (ErrorObject ("API request failed (" +:+ String_of_int (status response)
                           +:+ "): " +:+ errorText))
     else await (response_json response))
    (fun error =>
       match error with
       | ErrorObject _ => throw error
       | NonError rendered => throw (ErrorObject ("Failed to fetch from API: " +:+ rendered))
       end).

Definition fetchApiPost (this : BaseHandler) (endpoint : string)
    (body : object) : M JsonValue :=
  let url := apiUrl this +:+ endpoint in
  let headers :=
    [("Accept", "application/json"); ("Content-Type", "application/json");
     ("Authorization", "Token " +:+ apiToken this)] in
  let! response :=
    fetch {| url := url; method := "POST"; headers := headers;
             body := Some (JSON_stringify_object body) |} in
  if negb (ok response) then
    throw (ErrorObject ("API request failed: " +:+ String_of_int (status response)
                        +:+ " " +:+ statusText response))
  else await (response_json response).

(** The envelope every handler returns on success. *)
Definition json_envelope (result : JsonValue) : Envelope :=
  text_envelope (JSON_stringify result).

(** [catch (error) { throw new Error(`<prefix>: ${...}`) }]. *)
Definition rethrow {A} (prefix : string) (error : thrown) : M A :=
  throw (ErrorObject (prefix +:+ ": " +:+ message_of error)).

(** *** The handlers *)

(** The object [queryParams] of [AppleMetadataHandler.handle]. *)
Definition AppleMetadataHandler_queryParams (args : gmap string value) : object :=
  let app := args !! "app" in
  let data := or_default (args !! "data") "title" in
  let country := or_default (args !! "country") "in" in
  let language := or_default (args !! "language") "en" in
  let start_date := args !! "start_date" in
  let end_date := args !! "end_date" in
  let dateRange := getDefaultDateRange clock in
    [("app", app); ("data", Some data); ("country", Some country);
     ("language", Some language);
     ("start_date", js_or start_date (DateRange.start_date dateRange));
     ("end_date", js_or end_date (DateRange.end_date dateRange))].

Definition AppleMetadataHandler_handle (this : BaseHandler) (args : gmap string value)
  : M Envelope :=
  let app := args !! "app" in
  if negb (truthy app) then throw (ErrorObject "App ID is required") else
  let queryParams := AppleMetadataHandler_queryParams args in
  try_catch
    (let! result := fetchApi this "/metadata/apple/" queryParams in
     ret (json_envelope result))
    (rethrow "Failed to fetch Apple metadata").

(** The object [queryParams] of [AppleRankHandler.handle]. *)
Definition AppleRankHandler_queryParams (args : gmap string value) : object :=
  let app := args !! "app" in
  let country := or_default (args !! "country") "in" in
  let start_date := args !! "start_date" in
  let end_date := args !! "end_date" in
  let dateRange := getDefaultDateRange clock in
    [("app", app); ("country", Some country);
     ("start_date", js_or start_date (DateRange.start_date dateRange));
     ("end_date", js_or end_date (DateRange.end_date dateRange))].

Definition AppleRankHandler_handle (this : BaseHandler) (args : gmap string value)
  : M Envelope :=
  let app := args !! "app" in
  if negb (truthy app) then throw (ErrorObject "App ID is required") else
  let queryParams := AppleRankHandler_queryParams args in
  try_catch
    (let! result := fetchApi this "/category/rank/apple/" queryParams in
     ret (json_envelope result))
    (rethrow "Failed to fetch Apple category ranks").

(** The object [queryParams] of [AndroidMetadataHandler.handle]. *)
Definition AndroidMetadataHandler_queryParams (args : gmap string value) : object :=
  let app := args !! "app" in
  let data := or_default (args !! "data") "title" in
  let country := or_default (args !! "country") "in" in
  let language := or_default (args !! "language") "en" in
  let start_date := args !! "start_date" in
  let end_date := args !! "end_date" in
  let dateRange := getDefaultDateRange clock in
    [("app", app); ("data", Some data); ("country", Some country);
     ("language", Some language);
     ("start_date", js_or start_date (DateRange.start_date dateRange));
     ("end_date", js_or end_date (DateRange.end_date dateRange))].

Definition AndroidMetadataHandler_handle (this : BaseHandler) (args : gmap string value)
  : M Envelope :=
  let app := args !! "app" in
  if negb (truthy app) then throw (ErrorObject "App package name is required") else
  let queryParams := AndroidMetadataHandler_queryParams args in
  try_catch
    (let! result := fetchApi this "/metadata/android/" queryParams in
     ret (json_envelope result))
    (rethrow "Failed to fetch Android metadata").

(** The object [queryParams] of [AndroidRankHandler.handle]. *)
Definition AndroidRankHandler_queryParams (args : gmap string value) : object :=
  let app := args !! "app" in
  let country := or_default (args !! "country") "in" in
  let start_date := args !! "start_date" in
  let end_date := args !! "end_date" in
  let dateRange := getDefaultDateRange clock in
    [("app", app); ("country", Some country);
     ("start_date", js_or start_date (DateRange.start_date dateRange));
     ("end_date", js_or end_date (DateRange.end_date dateRange))].

Definition AndroidRankHandler_handle (this : BaseHandler) (args : gmap string value)
  : M Envelope :=
  let app := args !! "app" in
  if negb (truthy app) then throw (ErrorObject "App package name is required") else
  let queryParams := AndroidRankHandler_queryParams args in
  try_catch
    (let! result := fetchApi this "/category/rank/android/" queryParams in
     ret (json_envelope result))
    (rethrow "Failed to fetch Android category ranks").

(** The object [queryParams] of [AndroidReviewsHandler.handle]. *)
Definition AndroidReviewsHandler_queryParams (args : gmap string value) : object :=
  let app := args !! "app" in
  let language := or_default (args !! "language") "en" in
  let start_date := args !! "start_date" in
  let end_date := args !! "end_date" in
  let dateRange := getDefaultDateRange clock in
    [("app", app); ("language", Some language);
     ("start_date", js_or start_date (DateRange.start_date dateRange));
     ("end_date", js_or end_date (DateRange.end_date dateRange))].

Definition AndroidReviewsHandler_handle (this : BaseHandler) (args : gmap string value)
  : M Envelope :=
  let app := args !! "app" in
  if negb (truthy app) then throw (ErrorObject "App package name is required") else
  let queryParams := AndroidReviewsHandler_queryParams args in
  try_catch
    (let! result := fetchApi this "/reviews/android/" queryParams in
     ret (json_envelope result))
    (rethrow "Failed to fetch Android reviews").

(** The object [queryParams] of [AndroidKeywordRankHandler.handle], after the
    date parameters are set. *)
Definition AndroidKeywordRankHandler_queryParams (args : gmap string value) : object :=
  let app := args !! "app" in
  let keywords := args !! "keywords" in
  let country := or_default (args !! "country") "in" in
  let language := or_default (args !! "language") "en" in
  let start_date := args !! "start_date" in
  let end_date := args !! "end_date" in
  let date := args !! "date" in
  let dateRange := getDefaultDateRange clock in
  let queryParams : object :=
    [("app", app); ("keywords", keywords); ("country", Some country);
     ("language", Some language)] in
  if truthy date then obj_set "date" date queryParams
  else
    let queryParams :=
      obj_set "start_date" (js_or start_date (DateRange.start_date dateRange))
        queryParams in
    obj_set "end_date" (js_or end_date (DateRange.end_date dateRange)) queryParams.

Definition AndroidKeywordRankHandler_handle (this : BaseHandler) (args : gmap string value)
  : M Envelope :=
  let app := args !! "app" in
  let keywords := args !! "keywords" in
  if negb (truthy app) then throw (ErrorObject "App package name is required") else
  if negb (truthy keywords) then throw (ErrorObject "Keywords are required") else
  let queryParams := AndroidKeywordRankHandler_queryParams args in
  try_catch
    (let! result := fetchApi this "/ranks/android/" queryParams in
     ret (json_envelope result))
    (rethrow "Failed to fetch Android keyword ranks").

(** The message of the platform check, which quotes the two names. *)
Definition platform_error_message : string :=
  "Platform must be either " +:+ dquote +:+ "android" +:+ dquote +:+ " or "
  +:+ dquote +:+ "ios" +:+ dquote.

Definition KeywordResearchHandler_handle (this : BaseHandler)
    (args : gmap string value) : M Envelope :=
  let keywords := args !! "keywords" in
  let country := or_default (args !! "country") "in" in
  let language := or_default (args !! "language") "en" in
  let platform := or_default (args !! "platform") "android" in
  if negb (truthy keywords) || negb (isArray keywords) || length_is_zero keywords
  then throw (ErrorObject "Keywords array is required and must not be empty") else
  if negb (includes ["android"; "ios"] platform)
  then throw (ErrorObject platform_error_message) else
  let endpoint := "/keyword-research/" +:+ ToString platform +:+ "/" in
  let requestBody : object :=
    [("keywords", keywords); ("country", Some country);
     ("language", Some language); ("platform", Some platform)] in
  try_catch
    (let! result := fetchApiPost this endpoint requestBody in
     ret (json_envelope result))
    (rethrow "Failed to fetch keyword research data").

Definition UserJobsHandler_handle (this : BaseHandler) (args : gmap string value)
  : M Envelope :=
  try_catch
    (let! result := fetchApi this "/userjobs/" [] in
     ret (json_envelope result))
    (rethrow "Failed to fetch user jobs").

(** Modelled from the spec: [handlers/appleReviews.ts] is not among the
    available sources. Section 4.2 gives the tool [app] as its required
    argument, [country] (default [in]) and the date range as optional ones
    and the GET form; section 6 gives the path [/reviews/apple/]. The
    shape is that of the Android reviews handler. *)
Definition AppleReviewsHandler_queryParams (args : gmap string value) : object :=
  let app := args !! "app" in
  let country := or_default (args !! "country") "in" in
  let start_date := args !! "start_date" in
  let end_date := args !! "end_date" in
  let dateRange := getDefaultDateRange clock in
    [("app", app); ("country", Some country);
     ("start_date", js_or start_date (DateRange.start_date dateRange));
     ("end_date", js_or end_date (DateRange.end_date dateRange))].

(** Modelled from the spec: the [handle] of the same absent source file,
    with the required-field message of the Apple handlers at hand. *)
Definition AppleReviewsHandler_handle (this : BaseHandler) (args : gmap string value)
  : M Envelope :=
  let app := args !! "app" in
  if negb (truthy app) then throw (ErrorObject "App ID is required") else
  let queryParams := AppleReviewsHandler_queryParams args in
  try_catch
    (let! result := fetchApi this "/reviews/apple/" queryParams in
     ret (json_envelope result))
    (rethrow "Failed to fetch Apple reviews").

(** Modelled from the spec: [handlers/appleKeywordRank.ts] is not among
    the available sources. Section 4.2 gives the tool [app] and [keywords]
    as required, [country] and [language] as optional, and the same
    date-versus-range rule as the Android keyword-rank tool; section 6
    gives the path [/ranks/apple/]. The shape is that of the Android
    keyword-rank handler. *)
Definition AppleKeywordRankHandler_queryParams (args : gmap string value) : object :=
  let app := args !! "app" in
  let keywords := args !! "keywords" in
  let country := or_default (args !! "country") "in" in
  let language := or_default (args !! "language") "en" in
  let start_date := args !! "start_date" in
  let end_date := args !! "end_date" in
  let date := args !! "date" in
  let dateRange := getDefaultDateRange clock in
  let queryParams : object :=
    [("app", app); ("keywords", keywords); ("country", Some country);
     ("language", Some language)] in
  if truthy date then obj_set "date" date queryParams
  else
    let queryParams :=
      obj_set "start_date" (js_or start_date (DateRange.start_date dateRange))
        queryParams in
    obj_set "end_date" (js_or end_date (DateRange.end_date dateRange)) queryParams.

(** Modelled from the spec: the [handle] of the same absent source file,
    with the messages of the handlers at hand. *)
Definition AppleKeywordRankHandler_handle (this : BaseHandler) (args : gmap string value)
  : M Envelope :=
  let app := args !! "app" in
  let keywords := args !! "keywords" in
  if negb (truthy app) then throw (ErrorObject "App ID is required") else
  if negb (truthy keywords) then throw (ErrorObject "Keywords are required") else
  let queryParams := AppleKeywordRankHandler_queryParams args in
  try_catch
    (let! result := fetchApi this "/ranks/apple/" queryParams in
     ret (json_envelope result))
    (rethrow "Failed to fetch Apple keyword ranks").

(** *** The dispatcher of [index.ts] *)

Definition API_URL : string := "https://appvector.io/external-apis/api".

(** [process.env.APPVECTOR_TOKEN || ""]. *)
Definition API_TOKEN : string :=
  match APPVECTOR_TOKEN with
  | Some token => if negb (String.eqb token "") then token else ""
  | None => ""
  end.

Definition appleMetadataHandler : BaseHandler := new_BaseHandler API_URL API_TOKEN.
Definition appleRankHandler : BaseHandler := new_BaseHandler API_URL API_TOKEN.
Definition androidMetadataHandler : BaseHandler := new_BaseHandler API_URL API_TOKEN.
Definition androidRankHandler : BaseHandler := new_BaseHandler API_URL API_TOKEN.
Definition keywordResearchHandler : BaseHandler := new_BaseHandler API_URL API_TOKEN.
Definition appleReviewsHandler : BaseHandler := new_BaseHandler API_URL API_TOKEN.
Definition androidReviewsHandler : BaseHandler := new_BaseHandler API_URL API_TOKEN.
Definition appleKeywordRankHandler : BaseHandler := new_BaseHandler API_URL API_TOKEN.
Definition androidKeywordRankHandler : BaseHandler := new_BaseHandler API_URL API_TOKEN.
Definition userJobsHandler : BaseHandler := new_BaseHandler API_URL API_TOKEN.

(** [request.params]: the tool name and the argument bag. *)
Record ToolCallRequest : Type := mkCall {
  name : string;
  arguments : gmap string value
}.

(** The handler of [CallToolRequestSchema]: a [switch] on the tool name
    inside one [try], whose [catch] builds the error envelope. *)
Definition dispatch (request : ToolCallRequest) : M Envelope :=
  let args := arguments request in
  try_catch
    (if String.eqb (name request) "appvector_apple_metadata"
     then AppleMetadataHandler_handle appleMetadataHandler args
     else if String.eqb (name request) "appvector_apple_rank"
     then AppleRankHandler_handle appleRankHandler args
     else if String.eqb (name request) "appvector_android_metadata"
     then AndroidMetadataHandler_handle androidMetadataHandler args
     else if String.eqb (name request) "appvector_android_rank"
     then AndroidRankHandler_handle androidRankHandler args
     else if String.eqb (name request) "appvector_keyword_research"
     then KeywordResearchHandler_handle keywordResearchHandler args
     else if String.eqb (name request) "appvector_apple_reviews"
     then AppleReviewsHandler_handle appleReviewsHandler args
     else if String.eqb (name request) "appvector_android_reviews"
     then AndroidReviewsHandler_handle androidReviewsHandler args
     else if String.eqb (name request) "appvector_apple_keyword_rank"
     then AppleKeywordRankHandler_handle appleKeywordRankHandler args
     else if String.eqb (name request) "appvector_android_keyword_rank"
     then AndroidKeywordRankHandler_handle androidKeywordRankHandler args
     else if String.eqb (name request) "appvector_user_jobs"
     then UserJobsHandler_handle userJobsHandler args
     else throw (ErrorObject ("Unknown tool: " +:+ name request)))
    (fun error => ret (text_envelope ("Error: " +:+ message_of error))).

(** The handler bound to a tool name by the [switch] of [dispatch]. *)
Definition registered_handler (tool : string)
  : option (gmap string value -> M Envelope) :=
  if String.eqb tool "appvector_apple_metadata"
  then Some (AppleMetadataHandler_handle appleMetadataHandler)
  else if String.eqb tool "appvector_apple_rank"
  then Some (AppleRankHandler_handle appleRankHandler)
  else if String.eqb tool "appvector_android_metadata"
  then Some (AndroidMetadataHandler_handle androidMetadataHandler)
  else if String.eqb tool "appvector_android_rank"
  then Some (AndroidRankHandler_handle androidRankHandler)
  else if String.eqb tool "appvector_keyword_research"
  then Some (KeywordResearchHandler_handle keywordResearchHandler)
  else if String.eqb tool "appvector_apple_reviews"
  then Some (AppleReviewsHandler_handle appleReviewsHandler)
  else if String.eqb tool "appvector_android_reviews"
  then Some (AndroidReviewsHandler_handle androidReviewsHandler)
  else if String.eqb tool "appvector_apple_keyword_rank"
  then Some (AppleKeywordRankHandler_handle appleKeywordRankHandler)
  else if String.eqb tool "appvector_android_keyword_rank"
  then Some (AndroidKeywordRankHandler_handle androidKeywordRankHandler)
  else if String.eqb tool "appvector_user_jobs"
  then Some (UserJobsHandler_handle userJobsHandler)
  else None.

(** The [catch] clause of [dispatch]. *)
Definition error_envelope (error : thrown) : M Envelope :=
  ret (text_envelope ("Error: " +:+ message_of error)).

(** The request [fetchApi] issues. *)
Definition GET_request (this : BaseHandler) (endpoint : string) (queryParams : object)
  : Request :=
  {| url := apiUrl this +:+ endpoint +:+ buildQueryString queryParams;
     method := "GET";
     headers :=
       if negb (String.eqb (apiToken this) "")
       then [("Accept", "application/json"); ("Content-Type", "application/json");
             ("Authorization", "Token " +:+ apiToken this)]
       else [("Accept", "application/json"); ("Content-Type", "application/json")];
     body := None |}.

(** The request [fetchApiPost] issues. *)
Definition POST_request (this : BaseHandler) (endpoint : string) (body : object)
  : Request :=
  {| url := apiUrl this +:+ endpoint;
     method := "POST";
     headers :=
       [("Accept", "application/json"); ("Content-Type", "application/json");
        ("Authorization", "Token " +:+ apiToken this)];
     body := Some (JSON_stringify_object body) |}.

(** The two keyword-rank handlers, each with the parameter object it
    builds and its path. *)
Definition keyword_rank_handlers
  : list ((BaseHandler -> gmap string value -> M Envelope)
          * (gmap string value -> object) * string) :=
  [ (AppleKeywordRankHandler_handle, AppleKeywordRankHandler_queryParams,
     "/ranks/apple/");
    (AndroidKeywordRankHandler_handle, AndroidKeywordRankHandler_queryParams,
     "/ranks/android/") ].

(** The handlers that take a date range, each with the parameter object
    it builds and whether it also reads the single [date]. *)
Definition date_range_handlers
  : list ((BaseHandler -> gmap string value -> M Envelope)
          * (gmap string value -> object) * bool) :=
  [ (AppleMetadataHandler_handle, AppleMetadataHandler_queryParams, false);
    (AppleRankHandler_handle, AppleRankHandler_queryParams, false);
    (AndroidMetadataHandler_handle, AndroidMetadataHandler_queryParams, false);
    (AndroidRankHandler_handle, AndroidRankHandler_queryParams, false);
    (AppleReviewsHandler_handle, AppleReviewsHandler_queryParams, false);
    (AndroidReviewsHandler_handle, AndroidReviewsHandler_queryParams, false);
    (AppleKeywordRankHandler_handle, AppleKeywordRankHandler_queryParams, true);
    (AndroidKeywordRankHandler_handle, AndroidKeywordRankHandler_queryParams, true) ].

(** The two messages of the required-field check on [app]. *)
Definition app_required_messages : list string :=
  [ "App ID is required"; "App package name is required" ].

(** A computation that fails only with [Error] objects. *)
Definition throws_Error {A} (m : M A) : Prop :=
  forall e, outcome m = Abrupt e -> exists message, e = ErrorObject message.

(** *** Tables for stating properties of the GET tools *)

(** The configuration every handler object of [index.ts] is built with. *)
Definition handler_config : BaseHandler := new_BaseHandler API_URL API_TOKEN.

(** A tool served by [fetchApi]: its name in the [switch], its handler,
    the parameter object the handler builds, its path, the prefix its
    [catch] puts before a failure, and the arguments it checks. *)
Record GetTool : Type := mkGetTool {
  gt_name : string;
  gt_handle : BaseHandler -> gmap string value -> M Envelope;
  gt_queryParams : gmap string value -> object;
  gt_endpoint : string;
  gt_failure : string;
  gt_checked : list string
}.

Definition get_tools : list GetTool :=
  [ mkGetTool "appvector_apple_metadata" AppleMetadataHandler_handle
      AppleMetadataHandler_queryParams "/metadata/apple/"
      "Failed to fetch Apple metadata" ["app"];
    mkGetTool "appvector_apple_rank" AppleRankHandler_handle
      AppleRankHandler_queryParams "/category/rank/apple/"
      "Failed to fetch Apple category ranks" ["app"];
    mkGetTool "appvector_android_metadata" AndroidMetadataHandler_handle
      AndroidMetadataHandler_queryParams "/metadata/android/"
      "Failed to fetch Android metadata" ["app"];
    mkGetTool "appvector_android_rank" AndroidRankHandler_handle
      AndroidRankHandler_queryParams "/category/rank/android/"
      "Failed to fetch Android category ranks" ["app"];
    mkGetTool "appvector_apple_reviews" AppleReviewsHandler_handle
      AppleReviewsHandler_queryParams "/reviews/apple/"
      "Failed to fetch Apple reviews" ["app"];
    mkGetTool "appvector_android_reviews" AndroidReviewsHandler_handle
      AndroidReviewsHandler_queryParams "/reviews/android/"
      "Failed to fetch Android reviews" ["app"];
    mkGetTool "appvector_apple_keyword_rank" AppleKeywordRankHandler_handle
      AppleKeywordRankHandler_queryParams "/ranks/apple/"
      "Failed to fetch Apple keyword ranks" ["app"; "keywords"];
    mkGetTool "appvector_android_keyword_rank" AndroidKeywordRankHandler_handle
      AndroidKeywordRankHandler_queryParams "/ranks/android/"
      "Failed to fetch Android keyword ranks" ["app"; "keywords"];
    mkGetTool "appvector_user_jobs" UserJobsHandler_handle
      (fun _ => []) "/userjobs/" "Failed to fetch user jobs" [] ].

(** The arguments a handler checks are all truthy. *)
Definition checks_pass (tool : GetTool) (args : gmap string value) : Prop :=
  Forall (fun field => truthy (args !! field) = true) (gt_checked tool).

(** The message the [catch] of [fetchApi] leaves in the error it
    rethrows. *)
Definition fetchApi_message (error : thrown) : string :=
  match error with
  | ErrorObject message => message
  | NonError rendered => "Failed to fetch from API: " +:+ rendered
  end.

(** The messages of the required-field checks of all handlers. *)
Definition validation_messages : list string :=
  [ "App ID is required"; "App package name is required";
    "Keywords are required";
    "Keywords array is required and must not be empty" ].

(** The optional arguments with a destructuring default, by parameter
    object: the argument and its default. *)
Definition optional_defaults
  : list ((gmap string value -> object) * string * string) :=
  [ (AppleMetadataHandler_queryParams, "data", "title");
    (AppleMetadataHandler_queryParams, "country", "in");
    (AppleMetadataHandler_queryParams, "language", "en");
    (AppleRankHandler_queryParams, "country", "in");
    (AndroidMetadataHandler_queryParams, "data", "title");
    (AndroidMetadataHandler_queryParams, "country", "in");
    (AndroidMetadataHandler_queryParams, "language", "en");
    (AndroidRankHandler_queryParams, "country", "in");
    (AppleReviewsHandler_queryParams, "country", "in");
    (AndroidReviewsHandler_queryParams, "language", "en");
    (AppleKeywordRankHandler_queryParams, "country", "in");
    (AppleKeywordRankHandler_queryParams, "language", "en");
    (AndroidKeywordRankHandler_queryParams, "country", "in");
    (AndroidKeywordRankHandler_queryParams, "language", "en") ].

End Gateway.

(** ** Time zones

    Noon in a zone that is always at UTC, and noon in a zone that, like
    Pacific/Apia at the end of 2011, goes from ten hours behind UTC to
    fourteen hours ahead when its local day 2011-12-29 ends, so that the
    local day 2011-12-30 does not exist. *)

Definition noon_utc : LocalClock :=
  {| LocalTZA := fun _ _ => 0; clockTime := 43200000 |}.


(** ** Two concrete surroundings

    JSON values are kept as text. In the first the upstream cannot be
    reached and no token is set; in the second every request is answered
    with [200] and an empty JSON object. The clock stands at 2025-09-26
    in both. *)

Definition offline : Surroundings :=
  {| JsonValue := string;
     JSON_stringify := fun result => result;
     upstream := fun _ => Rejects (ErrorObject "fetch failed");
     clock := date_of 2025 9 26;
     local_clock := noon_utc;
     APPVECTOR_TOKEN := None |}.

Definition online (token : option string) : Surroundings :=
  {| JsonValue := string;
     JSON_stringify := fun result => result;
     upstream := fun _ =>
       Resolves {| ok := true; status := 200; statusText := "OK";
                   response_text := Normal "{}"; response_json := Normal "{}" |};
     clock := date_of 2025 9 26;
     local_clock := noon_utc;
     APPVECTOR_TOKEN := token |}.

(** ** Sample calls *)

Definition spotify : gmap string value :=
  {[ "app" := VStr "com.spotify.music"; "keywords" := VStr "music" ]}.

(** A keyword-rank call that gives both the single date and a range. *)
Definition date_and_range : gmap string value :=
  <["date" := VStr "2025-01-01"]>
    (<["start_date" := VStr "2025-01-01"]> (<["end_date" := VStr "2025-01-31"]> spotify)).

(** A keyword-rank call whose single date is present but empty. *)
Definition empty_date : gmap string value := <["date" := VStr ""]> spotify.

(** A keyword research call with nothing but its keywords. *)
Definition fitness : gmap string value := {[ "keywords" := VArr ["fitness"] ]}.

(** A keyword research call for a platform that is not offered. *)
Definition desktop : gmap string value := <["platform" := VStr "desktop"]> fitness.

(** What is compared of a request when its body is left aside. *)
Definition request_line (r : Request) : string * string * list (string * string) :=
  (method r, url r, headers r).

(** ** The argument schemas of the catalog *)

(** The properties each [inputSchema] of [index.ts] declares, by tool. *)
Definition schema_properties : list (string * list string) :=
  [ ("appvector_apple_metadata",
     ["app"; "data"; "country"; "language"; "start_date"; "end_date"]);
    ("appvector_apple_rank", ["app"; "country"; "start_date"; "end_date"]);
    ("appvector_android_metadata",
     ["app"; "data"; "country"; "language"; "start_date"; "end_date"]);
    ("appvector_android_rank", ["app"; "country"; "start_date"; "end_date"]);
    ("appvector_keyword_research", ["keywords"; "country"; "language"; "platform"]);
    ("appvector_apple_reviews", ["app"; "country"; "start_date"; "end_date"]);
    ("appvector_android_reviews", ["app"; "language"; "start_date"; "end_date"]);
    ("appvector_apple_keyword_rank",
     ["app"; "keywords"; "country"; "language"; "start_date"; "end_date"; "date"]);
    ("appvector_android_keyword_rank",
     ["app"; "keywords"; "country"; "language"; "start_date"; "end_date"; "date"]);
    ("appvector_user_jobs", []) ].

(** The [default] entries of the schemas: tool, property, default. *)
Definition schema_defaults : list (string * string * string) :=
  [ ("appvector_apple_metadata", "country", "in");
    ("appvector_apple_metadata", "language", "en");
    ("appvector_apple_rank", "country", "in");
    ("appvector_android_metadata", "country", "in");
    ("appvector_android_metadata", "language", "en");
    ("appvector_android_rank", "country", "in");
    ("appvector_keyword_research", "country", "in");
    ("appvector_keyword_research", "language", "en");
    ("appvector_keyword_research", "platform", "android");
    ("appvector_apple_reviews", "country", "in");
    ("appvector_android_reviews", "language", "en");
    ("appvector_apple_keyword_rank", "country", "in");
    ("appvector_apple_keyword_rank", "language", "en");
    ("appvector_android_keyword_rank", "country", "in");
    ("appvector_android_keyword_rank", "language", "en") ].

(** A reviews call with nothing but its app. *)
Definition katana : gmap string value := {[ "app" := VStr "com.facebook.katana" ]}.

(** ** Two more surroundings

    In the first the upstream refuses every request with [401] and a
    short body; in the second it answers [200] with a body that is not
    JSON, so that reading it fails. *)

Definition refusing : Surroundings :=
  {| JsonValue := string;
     JSON_stringify := fun result => result;
     upstream := fun _ =>
       Resolves {| ok := false; status := 401; statusText := "Unauthorized";
                   response_text := Normal "Invalid token";
                   response_json := Abrupt (ErrorObject "Unexpected token I") |};
     clock := date_of 2025 9 26;
     local_clock := noon_utc;
     APPVECTOR_TOKEN := Some "stale" |}.

Definition garbled : Surroundings :=
  {| JsonValue := string;
     JSON_stringify := fun result => result;
     upstream := fun _ =>
       Resolves {| ok := true; status := 200; statusText := "OK";
                   response_text := Normal "<html>";
                   response_json := Abrupt (ErrorObject "Unexpected token <") |};
     clock := date_of 2025 9 26;
     local_clock := noon_utc;
     APPVECTOR_TOKEN := Some "secret" |}.

(** The number of times a character occurs in a string. *)
Fixpoint count_char (c : ascii) (s : string) : nat :=
  match s with
  | EmptyString => O
  | String c' rest =>
      ((if Ascii.eqb c' c then 1 else 0) + count_char c rest)%nat
  end.

(** * Properties *)

Section Properties.

Context {surroundings : Surroundings}.


(** ** The calendar *)

Lemma day_of_era_bounds doe :
  0 <= doe < 146097 ->
  let yoe := (doe - doe / 1460 + doe / 36524 - doe / 146096) / 365 in
  let doy := doe - (365 * yoe + yoe / 4 - yoe / 100) in
  0 <= yoe <= 399 /\ 0 <= doy <= 365.
Proof.
  intros Hdoe yoe doy. subst yoe doy.
  Z.div_mod_to_equations. lia.
Qed.

Lemma month_of_year_day doy :
  0 <= doy <= 365 ->
  let mp := (5 * doy + 2) / 153 in
  0 <= mp <= 11 /\ 1 <= doy - (153 * mp + 2) / 5 + 1 <= 31.
Proof.
  intros Hdoy mp. subst mp.
  Z.div_mod_to_equations. lia.
Qed.

(** Months lie in 1..12 and days of month in 1..31. *)
Lemma civil_of_day_range z :
  1 <= (civil_of_day z).1.2 <= 12 /\ 1 <= (civil_of_day z).2 <= 31.
Proof.
  unfold civil_of_day.
  set (doe := (z + 719468) mod 146097).
  assert (Hdoe : 0 <= doe < 146097) by (apply Z.mod_pos_bound; lia).
  destruct (day_of_era_bounds doe Hdoe) as [_ Hdoy].
  set (yoe := (doe - doe / 1460 + doe / 36524 - doe / 146096) / 365) in *.
  set (doy := doe - (365 * yoe + yoe / 4 - yoe / 100)) in *.
  destruct (month_of_year_day doy Hdoy) as [Hmp Hd].
  set (mp := (5 * doy + 2) / 153) in *.
  cbn [fst snd]. split; [ | exact Hd ].
  destruct (Z.ltb_spec mp 10); lia.
Qed.

(** The day number of the calendar date of a day is that day. *)
Lemma day_of_civil_of_day z :
  day_of_civil (civil_of_day z).1.1 (civil_of_day z).1.2 (civil_of_day z).2 = z.
Proof.
  unfold civil_of_day.
  set (z' := z + 719468).
  set (doe := z' mod 146097).
  assert (Hdoe : 0 <= doe < 146097) by (apply Z.mod_pos_bound; lia).
  assert (Hz : z' = 146097 * (z' / 146097) + doe) by (apply Z.div_mod; lia).
  set (era := z' / 146097) in *.
  destruct (day_of_era_bounds doe Hdoe) as [Hyoe Hdoy].
  set (yoe := (doe - doe / 1460 + doe / 36524 - doe / 146096) / 365) in *.
  set (doy := doe - (365 * yoe + yoe / 4 - yoe / 100)) in *.
  destruct (month_of_year_day doy Hdoy) as [Hmp Hd].
  set (mp := (5 * doy + 2) / 153) in *.
  cbn [fst snd]. unfold day_of_civil.
  assert (Hera : (yoe + era * 400) / 400 = era)
    by (symmetry; apply (Z.div_unique _ 400 era yoe); lia).
  assert (Hmod : (yoe + era * 400) mod 400 = yoe)
    by (symmetry; apply (Z.mod_unique _ 400 era yoe); lia).
  destruct (Z.ltb_spec mp 10) as [Hlt | Hge].
  - replace (mp + 3 <=? 2) with false by (symmetry; apply Z.leb_gt; lia).
    replace (2 <? mp + 3) with true by (symmetry; apply Z.ltb_lt; lia).
    rewrite Hera, Hmod. replace (mp + 3 - 3) with mp by lia.
    subst doy z'. lia.
  - replace (mp - 9 <=? 2) with true by (symmetry; apply Z.leb_le; lia).
    replace (2 <? mp - 9) with false by (symmetry; apply Z.ltb_ge; lia).
    replace (yoe + era * 400 + 1 - 1) with (yoe + era * 400) by lia.
    rewrite Hera, Hmod. replace (mp - 9 + 9) with mp by lia.
    subst doy z'. lia.
Qed.







(** ** Strings *)

Lemma string_length_app (s1 s2 : string) :
  String.length (s1 +:+ s2) = (String.length s1 + String.length s2)%nat.
Proof.
  induction s1 as [ | c s1 IH ]; [ reflexivity | ].
  change (S (String.length (s1 +:+ s2)) = S (String.length s1 + String.length s2)).
  by rewrite IH.
Qed.

Lemma string_app_nil_inv (s1 s2 : string) : s1 +:+ s2 = "" -> s1 = "" /\ s2 = "".
Proof. destruct s1; [ intros H; split; [ reflexivity | exact H ] | discriminate ]. Qed.

(** A number from 1 to 31 is padded to exactly its two decimal digits. *)
Lemma padStart_two_digits n :
  1 <= n <= 31 -> padStart 2 "0" (String_of_int n) = two_digits n.
Proof.
  intros Hn.
  assert (Hall : forallb
            (fun k => String.eqb (padStart 2 "0" (String_of_int k)) (two_digits k))
            (seqZ 1 31) = true) by (vm_compute; reflexivity).
  rewrite forallb_forall in Hall.
  apply String.eqb_eq, Hall, list_elem_of_In, elem_of_seqZ. lia.
Qed.

Lemma formatDate_digits t :
  formatDate t
  = String_of_int (getFullYear t) +:+ "-" +:+ two_digits (getMonth t + 1)
      +:+ "-" +:+ two_digits (getDate t).
Proof.
  unfold formatDate, getMonth, getDate.
  destruct (civil_of_day_range (localDay t)) as [Hm Hd].
  rewrite !padStart_two_digits by lia. reflexivity.
Qed.




(** The formatted date is never the empty string. *)
Lemma formatDate_nonempty t : formatDate t <> "".
Proof.
  rewrite formatDate_digits. intros H.
  apply (f_equal String.length) in H. rewrite !string_length_app in H.
  cbn in H. lia.
Qed.


(** ** Query construction *)

Lemma append_entries_omap entries queryParams :
  append_entries entries queryParams = (queryParams ++ omap sent_pair entries)%list.
Proof.
  revert queryParams.
  induction entries as [ | [key v] rest IH ]; intros queryParams; cbn.
  - by rewrite app_nil_r.
  - unfold sent_pair at 1. cbn [fst snd].
    destruct v as [x | ]; [ destruct (is_sent (Some x)) | ];
      rewrite IH; [ by rewrite <- app_assoc | done | done ].
Qed.

Lemma NormalizedQuery_omap params : NormalizedQuery params = omap sent_pair params.
Proof. unfold NormalizedQuery. by rewrite append_entries_omap. Qed.

Lemma is_sent_true v : is_sent (Some v) = true <-> v <> VStr "".
Proof.
  destruct v as [s | items]; cbn.
  - rewrite negb_true_iff, eqb_neq. split; [ congruence | ].
    intros H ->. by apply H.
  - split; [ discriminate | done ].
Qed.

Lemma elem_of_NormalizedQuery params key txt :
  (key, txt) ∈ NormalizedQuery params
  <-> exists v, (key, Some v) ∈ params /\ v <> VStr "" /\ txt = ToString v.
Proof.
  rewrite NormalizedQuery_omap, list_elem_of_omap. split.
  - intros [[k v] [Hin Hs]]. unfold sent_pair in Hs. cbn [fst snd] in Hs.
    destruct v as [x | ]; [ | discriminate ].
    destruct (is_sent (Some x)) eqn:E; [ | discriminate ].
    injection Hs as -> <-. exists x. by rewrite <- is_sent_true.
  - intros (v & Hin & Hv & ->). exists (key, Some v). split; [ done | ].
    unfold sent_pair. cbn [fst snd]. apply is_sent_true in Hv. by rewrite Hv.
Qed.

Lemma concat_cons_nonempty sep x xs : x <> "" -> String.concat sep (x :: xs) <> "".
Proof.
  intros Hx H. cbn in H. destruct xs; [ done | ].
  by apply string_app_nil_inv in H as [? _].
Qed.

(** Only the empty list of pairs serializes to the empty string. *)
Lemma URLSearchParams_toString_empty q :
  String.eqb (URLSearchParams_toString q) "" = true <-> q = [].
Proof.
  rewrite String.eqb_eq. split; [ | by intros -> ].
  destruct q as [ | [k v] q ]; [ done | ]. intros H. exfalso.
  revert H. unfold URLSearchParams_toString. cbn [map].
  apply concat_cons_nonempty. intros H.
  apply string_app_nil_inv in H as [_ H]. discriminate.
Qed.

Lemma buildQueryString_cases params :
  buildQueryString params
  = match NormalizedQuery params with
    | nil => ""
    | q => "?" +:+ URLSearchParams_toString q
    end.
Proof.
  unfold buildQueryString. fold (NormalizedQuery params).
  destruct (NormalizedQuery params) as [ | kv q ] eqn:E; [ done | ].
  destruct (String.eqb (URLSearchParams_toString (kv :: q)) "") eqn:Hs; [ | done ].
  by apply URLSearchParams_toString_empty in Hs.
Qed.

(** C6. A pair reaches the query exactly when its value is neither
    undefined nor the empty string; for a parameter object of the declared
    type every pair that reaches it has a non-empty value; the query string
    is empty when no pair is retained and a question mark followed by the
    serialised pairs otherwise; and country [in] with an empty language
    gives country=in alone. *)
Theorem C6_query_drops_empty_values :
  (forall params key txt,
     (key, txt) ∈ NormalizedQuery params
     <-> exists v, (key, Some v) ∈ params /\ v <> VStr "" /\ txt = ToString v)
  /\ (forall p key txt,
        (key, txt) ∈ NormalizedQuery (typed_params p)
        <-> (key, Some txt) ∈ p /\ txt <> "")
  /\ (forall params,
        buildQueryString params
        = match NormalizedQuery params with
          | nil => ""
          | q => "?" +:+ URLSearchParams_toString q
          end)
  /\ NormalizedQuery (typed_params [("country", Some "in"); ("language", Some "")])
     = [("country", "in")]
  /\ buildQueryString (typed_params [("country", Some "in"); ("language", Some "")])
     = "?country=in".
Proof.
  split; [ exact elem_of_NormalizedQuery | ].
  split; [ | split; [ exact buildQueryString_cases | split; reflexivity ] ].
  intros p key txt. rewrite elem_of_NormalizedQuery. unfold typed_params. split.
  - intros (v & Hin & Hv & ->).
    apply list_elem_of_fmap in Hin as [[k o] [Heq Hin]]. cbn [fst snd] in Heq.
    injection Heq as -> Ho. destruct o as [s | ]; [ | discriminate ].
    injection Ho as ->. cbn. split; [ done | ]. intros ->. by apply Hv.
  - intros [Hin Hne]. exists (VStr txt). split; [ | split; [ congruence | done ] ].
    apply list_elem_of_fmap. by exists (key, Some txt).
Qed.

(** ** Routing *)

Lemma dispatch_route request :
  dispatch request
  = try_catch
      match registered_handler (name request) with
      | Some handle => handle (arguments request)
      | None => throw (ErrorObject ("Unknown tool: " +:+ name request))
      end
      error_envelope.
Proof.
  unfold dispatch, registered_handler.
  repeat (destruct (String.eqb (name request) _); [ reflexivity | ]).
  reflexivity.
Qed.

Lemma registered_handler_known tool :
  tool ∈ tool_names <-> is_Some (registered_handler tool).
Proof.
  split.
  - intros H. unfold tool_names, tools in H. cbn [map tool_name] in H.
    repeat (apply elem_of_cons in H as [-> | H]; [ by eexists | ]).
    by apply elem_of_nil in H.
  - unfold registered_handler.
    repeat match goal with
           | |- context [String.eqb tool ?s] =>
               destruct (String.eqb_spec tool s) as [-> | _];
               [ intros _; apply list_elem_of_In; cbn; tauto | ]
           end.
    by intros [? ?].
Qed.

Lemma registered_handler_unknown tool :
  tool ∉ tool_names -> registered_handler tool = None.
Proof.
  intros H. destruct (registered_handler tool) eqn:E; [ | done ].
  exfalso. apply H, registered_handler_known. by rewrite E.
Qed.

(** ** What handlers throw *)

Lemma throw_throws_Error {A} message : throws_Error (@throw A (ErrorObject message)).
Proof. intros e H. injection H as <-. by eexists. Qed.

Lemma try_catch_rethrow_throws_Error {A} (m : M A) prefix :
  throws_Error (try_catch m (rethrow prefix)).
Proof.
  intros e. destruct m as [log [a | e']]; cbn; [ discriminate | ].
  intros H. injection H as <-. by eexists.
Qed.

Ltac handler_throws_Error :=
  repeat match goal with
         | |- throws_Error (if ?b then _ else _) => destruct b
         | |- throws_Error (throw _) => apply throw_throws_Error
         | |- throws_Error (try_catch _ (rethrow _)) =>
             apply try_catch_rethrow_throws_Error
         end.

Lemma registered_handler_throws_Error tool handle args :
  registered_handler tool = Some handle -> throws_Error (handle args).
Proof.
  unfold registered_handler.
  repeat match goal with
         | |- context [String.eqb tool ?s] =>
             destruct (String.eqb tool s);
             [ intros H; injection H as <- | ]
         end; [ .. | discriminate ].
  - unfold AppleMetadataHandler_handle. cbv zeta. handler_throws_Error.
  - unfold AppleRankHandler_handle. cbv zeta. handler_throws_Error.
  - unfold AndroidMetadataHandler_handle. cbv zeta. handler_throws_Error.
  - unfold AndroidRankHandler_handle. cbv zeta. handler_throws_Error.
  - unfold KeywordResearchHandler_handle. cbv zeta. handler_throws_Error.
  - unfold AppleReviewsHandler_handle. cbv zeta. handler_throws_Error.
  - unfold AndroidReviewsHandler_handle. cbv zeta. handler_throws_Error.
  - unfold AppleKeywordRankHandler_handle. cbv zeta. handler_throws_Error.
  - unfold AndroidKeywordRankHandler_handle. cbv zeta. handler_throws_Error.
  - unfold UserJobsHandler_handle. handler_throws_Error.
Qed.

(** ** The catch boundary of the dispatcher *)

(** C1, as amended. A call whose tool name is not in the catalog issues no
    outbound request and comes back as the same text envelope as any other
    failure: its text is [Error: Unknown tool: ] followed by the name. *)
Theorem C1_unknown_tool_is_wrapped request :
  name request ∉ tool_names ->
  dispatch request
  = ([], Normal (text_envelope ("Error: Unknown tool: " +:+ name request))).
Proof.
  intros H. rewrite dispatch_route, (registered_handler_unknown _ H).
  reflexivity.
Qed.

(** C2. A call whose tool name is in the catalog always comes back with an
    envelope: the requests issued are those of the handler; an envelope the
    handler returns is passed on unchanged; a failure of the handler is an
    [Error] object and becomes the envelope whose one text block is
    [Error: ] followed by its message. *)
Theorem C2_known_tool_always_envelope request :
  name request ∈ tool_names ->
  exists handle,
    registered_handler (name request) = Some handle
    /\ requests (dispatch request) = requests (handle (arguments request))
    /\ match outcome (handle (arguments request)) with
       | Normal envelope => outcome (dispatch request) = Normal envelope
       | Abrupt e =>
           exists message,
             e = ErrorObject message
             /\ outcome (dispatch request)
                = Normal (text_envelope ("Error: " +:+ message))
       end.
Proof.
  intros H. apply registered_handler_known in H as [handle Hh].
  exists handle. split; [ exact Hh | ].
  rewrite dispatch_route, Hh.
  pose proof (registered_handler_throws_Error _ _ (arguments request) Hh) as Hthrows.
  destruct (handle (arguments request)) as [log [envelope | e]];
    cbn; [ done | ].
  split; [ by rewrite app_nil_r | ].
  destruct (Hthrows e eq_refl) as [message ->]. by exists message.
Qed.

(** ** The required-field check *)

Lemma app_tools_eq :
  app_tools
  = [ "appvector_apple_metadata"; "appvector_apple_rank";
      "appvector_android_metadata"; "appvector_android_rank";
      "appvector_apple_reviews"; "appvector_android_reviews";
      "appvector_apple_keyword_rank"; "appvector_android_keyword_rank" ].
Proof. vm_compute. reflexivity. Qed.

Ltac route_to_handler :=
  rewrite dispatch_route;
  cbn [name arguments registered_handler String.eqb Ascii.eqb Bool.eqb].

(** A falsy [app] stops every tool that requires it before any request. *)
Lemma app_tool_rejects_falsy_app tool :
  tool ∈ app_tools ->
  exists message,
    message ∈ app_required_messages
    /\ forall args,
         truthy (args !! "app") = false ->
         dispatch (mkCall tool args)
         = ([], Normal (text_envelope ("Error: " +:+ message))).
Proof.
  rewrite app_tools_eq. intros H.
  repeat (apply elem_of_cons in H as [-> | H]); [ .. | by apply elem_of_nil in H ].
  all: eexists; split;
    [ | intros args Hfalsy; route_to_handler;
        unfold AppleMetadataHandler_handle, AppleRankHandler_handle,
          AndroidMetadataHandler_handle, AndroidRankHandler_handle,
          AppleReviewsHandler_handle, AndroidReviewsHandler_handle,
          AppleKeywordRankHandler_handle, AndroidKeywordRankHandler_handle;
        cbv zeta; rewrite Hfalsy; reflexivity ].
  all: apply list_elem_of_In; cbn; tauto.
Qed.

(** C8. For every tool whose contract requires [app], a call without
    [app] issues no outbound request and returns the text envelope
    [Error: ] followed by the message of the required-field check, which
    names the app identifier. *)
Theorem C8_missing_app_is_rejected tool :
  tool ∈ app_tools ->
  exists message,
    message ∈ app_required_messages
    /\ forall args,
         args !! "app" = None ->
         dispatch (mkCall tool args)
         = ([], Normal (text_envelope ("Error: " +:+ message))).
Proof.
  intros H. destruct (app_tool_rejects_falsy_app tool H) as (message & Hm & Hd).
  exists message. split; [ exact Hm | ].
  intros args Happ. apply Hd. by rewrite Happ.
Qed.

(** C9. For every tool whose contract requires [app], a call with [app]
    set to the empty string behaves as the call without [app]: the same
    error envelope and no outbound request. *)
Theorem C9_empty_app_is_missing_app tool args :
  tool ∈ app_tools ->
  dispatch (mkCall tool (<["app" := VStr ""]> args))
  = dispatch (mkCall tool (delete "app" args))
  /\ exists message,
       message ∈ app_required_messages
       /\ dispatch (mkCall tool (<["app" := VStr ""]> args))
          = ([], Normal (text_envelope ("Error: " +:+ message))).
Proof.
  intros H. destruct (app_tool_rejects_falsy_app tool H) as (message & Hm & Hd).
  assert (Hempty : dispatch (mkCall tool (<["app" := VStr ""]> args))
                   = ([], Normal (text_envelope ("Error: " +:+ message))))
    by (apply Hd; by rewrite lookup_insert_eq).
  split; [ | by exists message ].
  rewrite Hempty. symmetry. apply Hd. by rewrite lookup_delete_eq.
Qed.

(** ** Date defaulting *)

Lemma js_or_falsy a b : truthy a = false -> js_or a b = Some (VStr b).
Proof. unfold js_or. by intros ->. Qed.

Lemma get_sent_pair_cons field key v rest :
  URLSearchParams_get field (omap sent_pair ((key, v) :: rest))
  = if is_sent v
    then if String.eqb key field then ToString <$> v
         else URLSearchParams_get field (omap sent_pair rest)
    else URLSearchParams_get field (omap sent_pair rest).
Proof.
  destruct v as [x | ]; [ | reflexivity ].
  change (omap sent_pair ((key, Some x) :: rest))
    with (match (if is_sent (Some x) then Some (key, ToString x) else None) with
          | Some y => y :: omap sent_pair rest
          | None => omap sent_pair rest
          end).
  destruct (is_sent (Some x)); reflexivity.
Qed.

Lemma is_sent_default t : is_sent (Some (VStr (formatDate t))) = true.
Proof. apply is_sent_true. intros H. injection H. apply formatDate_nonempty. Qed.

Ltac unfold_queryParams :=
  unfold AppleMetadataHandler_queryParams, AppleRankHandler_queryParams,
    AndroidMetadataHandler_queryParams, AndroidRankHandler_queryParams,
    AppleReviewsHandler_queryParams, AndroidReviewsHandler_queryParams,
    AppleKeywordRankHandler_queryParams, AndroidKeywordRankHandler_queryParams;
  cbv zeta.

Ltac unfold_handle :=
  unfold AppleMetadataHandler_handle, AppleRankHandler_handle,
    AndroidMetadataHandler_handle, AndroidRankHandler_handle,
    AppleReviewsHandler_handle, AndroidReviewsHandler_handle,
    AppleKeywordRankHandler_handle, AndroidKeywordRankHandler_handle;
  cbv zeta.


(** ** Requests issued *)

Lemma requests_try_catch_rethrow {A} (m : M A) prefix :
  requests (try_catch m (rethrow prefix)) = requests m.
Proof. destruct m as [log [a | e]]; cbn; [ done | by rewrite app_nil_r ]. Qed.

Lemma requests_bind_ret {A B} (m : M A) (f : A -> B) :
  requests (let! x := m in ret (f x)) = requests m.
Proof. destruct m as [log [a | e]]; cbn; [ by rewrite app_nil_r | done ]. Qed.

(** [fetchApi] issues exactly one request, however the call ends. *)
Lemma fetchApi_requests this endpoint queryParams :
  requests (fetchApi this endpoint queryParams)
  = [GET_request this endpoint queryParams].
Proof.
  unfold fetchApi, GET_request, fetch. cbv zeta.
  destruct (negb (String.eqb (apiToken this) "")); cbn [app];
    match goal with
    | |- context [upstream ?r] => destruct (upstream r) as [[m | s] | response]
    end; cbn; try reflexivity.
  all: destruct (ok response); cbn;
    [ destruct (response_json response) as [j | [m | s]]
    | destruct (response_text response) as [t | [m | s]] ];
    reflexivity.
Qed.



(** ** Date precedence in the keyword-rank tools *)

(** C4, as amended. In the two keyword-rank tools, once [app] and
    [keywords] pass the required-field checks, the one request sent carries
    the parameter object, and: when [date] is truthy (present and not the
    empty string) the query has [date] and neither [start_date] nor
    [end_date], whatever was supplied for them; when [date] is absent or
    the empty string the query has no [date] and has [start_date] and
    [end_date], each the supplied value or else the 30-day default. *)
Theorem C4_date_precedence handle queryParams endpoint this args :
  (handle, queryParams, endpoint) ∈ keyword_rank_handlers ->
  truthy (args !! "app") = true ->
  truthy (args !! "keywords") = true ->
  let query := NormalizedQuery (queryParams args) in
  let dateRange := getDefaultDateRange clock in
  requests (handle this args) = [GET_request this endpoint (queryParams args)]
  /\ (truthy (args !! "date") = true ->
      URLSearchParams_get "date" query = ToString <$> (args !! "date")
      /\ is_Some (args !! "date")
      /\ URLSearchParams_get "start_date" query = None
      /\ URLSearchParams_get "end_date" query = None)
  /\ (truthy (args !! "date") = false ->
      URLSearchParams_get "date" query = None
      /\ URLSearchParams_get "start_date" query
         = ToString <$> js_or (args !! "start_date") (DateRange.start_date dateRange)
      /\ URLSearchParams_get "end_date" query
         = ToString <$> js_or (args !! "end_date") (DateRange.end_date dateRange)
      /\ is_Some (js_or (args !! "start_date") (DateRange.start_date dateRange))
      /\ is_Some (js_or (args !! "end_date") (DateRange.end_date dateRange))).
Proof.
  unfold keyword_rank_handlers. intros H Happ Hkw.
  assert (Hsent : forall v, truthy v = true -> is_sent v = true)
    by (intros [[s | items] | ]; done).
  assert (Hor : forall a b, is_sent (js_or a (formatDate b)) = true).
  { intros a b. unfold js_or. destruct (truthy a) eqn:E;
      [ by apply Hsent | apply is_sent_default ]. }
  assert (Hsome : forall a b, is_Some (js_or a b)).
  { intros a b. unfold js_or. destruct (truthy a) eqn:E; [ | by eexists ].
    destruct a; [ by eexists | discriminate ]. }
  repeat (apply elem_of_cons in H as [[= -> -> ->] | H]);
    [ .. | by apply elem_of_nil in H ].
  all: cbv zeta; split;
    [ unfold_handle; rewrite Happ, Hkw; cbn [negb];
      rewrite requests_try_catch_rethrow, requests_bind_ret;
      apply fetchApi_requests | ].
  all: rewrite NormalizedQuery_omap; unfold_queryParams.
  all: split; intros Hdate; rewrite Hdate;
    cbn [obj_set String.eqb Ascii.eqb Bool.eqb];
    repeat apply conj;
    try (destruct (args !! "date"); [ by eexists | discriminate ]);
    try apply Hsome;
    repeat (rewrite get_sent_pair_cons; cbn [String.eqb Ascii.eqb Bool.eqb]);
    rewrite ?Hor, ?(Hsent _ Happ), ?(Hsent _ Hkw), ?(Hsent _ Hdate);
    cbn [DateRange.start_date DateRange.end_date getDefaultDateRange];
    rewrite ?Hor;
    repeat match goal with
           | |- context [if is_sent ?v then _ else _] => destruct (is_sent v)
           end;
    reflexivity.
Qed.

(** ** Keyword research *)

Lemma includes_platform p :
  includes ["android"; "ios"] p = true <-> p = VStr "android" \/ p = VStr "ios".
Proof.
  destruct p as [s | items]; cbn.
  - rewrite !orb_true_iff, !String.eqb_eq. split.
    + intros [-> | [-> | H]]; [ by left | by right | discriminate ].
    + intros [[= ->] | [= ->]]; auto.
  - split; [ discriminate | intros [H | H]; discriminate ].
Qed.

(** [fetchApiPost] issues exactly one request, however the call ends. *)
Lemma fetchApiPost_requests this endpoint body :
  requests (fetchApiPost this endpoint body) = [POST_request this endpoint body].
Proof.
  unfold fetchApiPost, POST_request, fetch. cbv zeta.
  match goal with
  | |- context [upstream ?r] => destruct (upstream r) as [e | response]
  end; cbn; [ reflexivity | ].
  destruct (ok response); cbn;
    [ destruct (response_json response) | ]; reflexivity.
Qed.

(** C7. In the keyword research tool: a [platform] that is present and
    is neither [android] nor [ios] ends the call with a validation error
    and no outbound request; so does a [keywords] that is missing, not a
    list, or an empty list; and with [platform] omitted and a non-empty
    list of keywords the one request goes to the [android] path with
    [android] as the platform of its body. *)
Theorem C7_keyword_research_validation this args :
  (forall p,
     args !! "platform" = Some p -> p <> VStr "android" -> p <> VStr "ios" ->
     exists message,
       KeywordResearchHandler_handle this args = ([], Abrupt (ErrorObject message))
       /\ (message = "Keywords array is required and must not be empty"
           \/ message = platform_error_message))
  /\ (args !! "keywords" = None
      \/ (exists s, args !! "keywords" = Some (VStr s))
      \/ args !! "keywords" = Some (VArr []) ->
      KeywordResearchHandler_handle this args
      = ([], Abrupt (ErrorObject "Keywords array is required and must not be empty")))
  /\ (forall k ks,
        args !! "platform" = None ->
        args !! "keywords" = Some (VArr (k :: ks)) ->
        requests (KeywordResearchHandler_handle this args)
        = [POST_request this "/keyword-research/android/"
             [("keywords", Some (VArr (k :: ks)));
              ("country", Some (or_default (args !! "country") "in"));
              ("language", Some (or_default (args !! "language") "en"));
              ("platform", Some (VStr "android"))]]).
Proof.
  repeat apply conj.
  - intros p Hp Handroid Hios. unfold KeywordResearchHandler_handle. cbv zeta.
    destruct (negb (truthy (args !! "keywords")) || negb (isArray (args !! "keywords"))
              || length_is_zero (args !! "keywords"));
      [ eexists; split; [ reflexivity | by left ] | ].
    rewrite Hp. cbn [or_default].
    destruct (includes ["android"; "ios"] p) eqn:E.
    + apply includes_platform in E as [-> | ->]; done.
    + eexists; split; [ reflexivity | by right ].
  - intros H. unfold KeywordResearchHandler_handle. cbv zeta.
    destruct H as [-> | [[s ->] | ->]]; [ reflexivity | | reflexivity ].
    cbn [truthy isArray length_is_zero negb]. by rewrite orb_true_r.
  - intros k ks Hp Hkw. unfold KeywordResearchHandler_handle. cbv zeta.
    rewrite Hp, Hkw. cbn [truthy isArray length_is_zero negb orb or_default
                            includes existsb String.eqb Ascii.eqb Bool.eqb ToString].
    rewrite requests_try_catch_rethrow, requests_bind_ret.
    apply fetchApiPost_requests.
Qed.

(** ** Authorization *)

(** On the GET path the header is sent exactly when the token is not the
    empty string. *)
Lemma GET_request_authorization this endpoint queryParams :
  (exists v, ("Authorization", v) ∈ headers (GET_request this endpoint queryParams))
  <-> apiToken this <> "".
Proof.
  unfold GET_request. cbn [headers].
  destruct (String.eqb_spec (apiToken this) "") as [E | E]; cbn [negb].
  - split; [ | done ]. intros [v H].
    repeat (apply elem_of_cons in H as [[=] | H]). by apply elem_of_nil in H.
  - split; [ done | ]. intros _. eexists.
    do 2 apply list_elem_of_further. apply list_elem_of_here.
Qed.

(** On the POST path the header is always sent. *)
Lemma POST_request_authorization this endpoint body :
  ("Authorization", "Token " +:+ apiToken this)
  ∈ headers (POST_request this endpoint body).
Proof.
  unfold POST_request. cbn [headers].
  do 2 apply list_elem_of_further. apply list_elem_of_here.
Qed.

(** ** Outcomes of the GET tools *)

Ltac destruct_member H :=
  repeat (apply elem_of_cons in H as [-> | H]); [ .. | by apply elem_of_nil in H ].

(** What [fetchApi] makes of each answer of the upstream. *)
Lemma fetchApi_run this endpoint queryParams :
  fetchApi this endpoint queryParams
  = ([GET_request this endpoint queryParams],
     match upstream (GET_request this endpoint queryParams) with
     | Rejects e => Abrupt (ErrorObject (fetchApi_message e))
     | Resolves r =>
         if ok r then
           match response_json r with
           | Normal j => Normal j
           | Abrupt e => Abrupt (ErrorObject (fetchApi_message e))
           end
         else
           match response_text r with
           | Normal t =>
               Abrupt (ErrorObject ("API request failed (" +:+ String_of_int (status r)
                                    +:+ "): " +:+ t))
           | Abrupt e => Abrupt (ErrorObject (fetchApi_message e))
           end
     end).
Proof.
  unfold fetchApi, GET_request, fetch. cbv zeta.
  destruct (negb (String.eqb (apiToken this) "")); cbn [app];
    match goal with
    | |- context [upstream ?r] => destruct (upstream r) as [[m | s] | response]
    end; cbn; try reflexivity.
  all: destruct (ok response); cbn;
    [ destruct (response_json response) as [j | [m | s]]
    | destruct (response_text response) as [t | [m | s]] ];
    reflexivity.
Qed.

Lemma get_tool_registered tool :
  tool ∈ get_tools ->
  registered_handler (gt_name tool) = Some (gt_handle tool handler_config).
Proof. unfold get_tools. intros H. destruct_member H; reflexivity. Qed.

(** Past its checks a handler is one [fetchApi] call inside its [try]. *)
Lemma get_tool_handle tool this args :
  tool ∈ get_tools ->
  checks_pass tool args ->
  gt_handle tool this args
  = try_catch
      (let! result := fetchApi this (gt_endpoint tool) (gt_queryParams tool args) in
       ret (json_envelope result))
      (rethrow (gt_failure tool)).
Proof.
  unfold get_tools, checks_pass. intros H Hchecks.
  destruct_member H; cbn [gt_checked gt_handle gt_endpoint gt_queryParams gt_failure] in *.
  all: repeat match goal with
              | H : Forall _ (_ :: _) |- _ =>
                  apply Forall_cons in H as [? H]
              end.
  all: unfold_handle; unfold UserJobsHandler_handle;
    repeat match goal with
           | H : truthy _ = true |- _ => rewrite H; clear H
           end; reflexivity.
Qed.

(** The text a GET tool answers with, by the answer of the upstream. *)
Lemma dispatch_get_tool tool args :
  tool ∈ get_tools ->
  checks_pass tool args ->
  dispatch (mkCall (gt_name tool) args)
  = ([GET_request handler_config (gt_endpoint tool) (gt_queryParams tool args)],
     Normal (text_envelope
       match upstream (GET_request handler_config (gt_endpoint tool)
                         (gt_queryParams tool args)) with
       | Rejects e => "Error: " +:+ gt_failure tool +:+ ": " +:+ fetchApi_message e
       | Resolves r =>
           if ok r then
             match response_json r with
             | Normal j => JSON_stringify j
             | Abrupt e => "Error: " +:+ gt_failure tool +:+ ": " +:+ fetchApi_message e
             end
           else
             match response_text r with
             | Normal t =>
                 "Error: " +:+ gt_failure tool +:+ ": API request failed ("
                 +:+ String_of_int (status r) +:+ "): " +:+ t
             | Abrupt e => "Error: " +:+ gt_failure tool +:+ ": " +:+ fetchApi_message e
             end
       end)).
Proof.
  intros H Hchecks. rewrite dispatch_route. cbn [name arguments].
  rewrite (get_tool_registered _ H), (get_tool_handle _ _ _ H Hchecks), fetchApi_run.
  destruct (upstream _) as [e | r]; [ reflexivity | ].
  destruct (ok r);
    [ destruct (response_json r) | destruct (response_text r) ]; reflexivity.
Qed.

(** X1. A GET tool whose checks pass and whose request is answered with a
    success status and a JSON body sends that one request and returns the
    pretty-printed body as its single text block. *)
Theorem X1_get_success tool args r j :
  tool ∈ get_tools ->
  checks_pass tool args ->
  upstream (GET_request handler_config (gt_endpoint tool) (gt_queryParams tool args))
  = Resolves r ->
  ok r = true ->
  response_json r = Normal j ->
  dispatch (mkCall (gt_name tool) args)
  = ([GET_request handler_config (gt_endpoint tool) (gt_queryParams tool args)],
     Normal (text_envelope (JSON_stringify j))).
Proof.
  intros H Hchecks Hup Hok Hjson.
  by rewrite (dispatch_get_tool _ _ H Hchecks), Hup, Hok, Hjson.
Qed.

(** X2. A GET tool whose request is answered with a failure status
    returns an error envelope that names what was being fetched, the
    numeric status and the body of the answer. *)
Theorem X2_get_status_error tool args r t :
  tool ∈ get_tools ->
  checks_pass tool args ->
  upstream (GET_request handler_config (gt_endpoint tool) (gt_queryParams tool args))
  = Resolves r ->
  ok r = false ->
  response_text r = Normal t ->
  dispatch (mkCall (gt_name tool) args)
  = ([GET_request handler_config (gt_endpoint tool) (gt_queryParams tool args)],
     Normal (text_envelope
               ("Error: " +:+ gt_failure tool +:+ ": API request failed ("
                +:+ String_of_int (status r) +:+ "): " +:+ t))).
Proof.
  intros H Hchecks Hup Hok Htext.
  by rewrite (dispatch_get_tool _ _ H Hchecks), Hup, Hok, Htext.
Qed.

(** X3. A GET tool whose request cannot be completed, or whose answer
    cannot be read, returns an error envelope with the message of the
    failure; a failure that is not an [Error] object is first rendered
    behind the words [Failed to fetch from API]. *)
Theorem X3_get_transport_failure tool args :
  tool ∈ get_tools ->
  checks_pass tool args ->
  let request :=
    GET_request handler_config (gt_endpoint tool) (gt_queryParams tool args) in
  let failed e :=
    dispatch (mkCall (gt_name tool) args)
    = ([request],
       Normal (text_envelope
                 ("Error: " +:+ gt_failure tool +:+ ": " +:+ fetchApi_message e))) in
  (forall e, upstream request = Rejects e -> failed e)
  /\ (forall r e,
        upstream request = Resolves r -> ok r = true ->
        response_json r = Abrupt e -> failed e)
  /\ (forall r e,
        upstream request = Resolves r -> ok r = false ->
        response_text r = Abrupt e -> failed e).
Proof.
  intros H Hchecks. cbv zeta. repeat apply conj.
  - intros e Hup. by rewrite (dispatch_get_tool _ _ H Hchecks), Hup.
  - intros r e Hup Hok Hjson.
    by rewrite (dispatch_get_tool _ _ H Hchecks), Hup, Hok, Hjson.
  - intros r e Hup Hok Htext.
    by rewrite (dispatch_get_tool _ _ H Hchecks), Hup, Hok, Htext.
Qed.
(** ** Requests and envelopes of any call *)

Lemma requests_try_catch_error_envelope (m : M Envelope) :
  requests (try_catch m error_envelope) = requests m.
Proof. destruct m as [log [a | e]]; cbn; [ done | by rewrite app_nil_r ]. Qed.

(** A GET handler sends nothing or the one request of its parameter
    object. *)
Lemma get_tool_requests tool this args :
  tool ∈ get_tools ->
  requests (gt_handle tool this args) = []
  \/ requests (gt_handle tool this args)
     = [GET_request this (gt_endpoint tool) (gt_queryParams tool args)].
Proof.
  unfold get_tools. intros H.
  destruct_member H; cbn [gt_handle gt_endpoint gt_queryParams];
    unfold_handle; unfold UserJobsHandler_handle;
    repeat match goal with
           | |- context [if negb (truthy ?v) then _ else _] =>
               destruct (negb (truthy v)); [ left; reflexivity | ]
           end;
    right; rewrite requests_try_catch_rethrow, requests_bind_ret;
    apply fetchApi_requests.
Qed.

(** The keyword research handler sends nothing or one POST request. *)
Lemma keyword_research_requests this args :
  requests (KeywordResearchHandler_handle this args) = []
  \/ exists endpoint body,
       requests (KeywordResearchHandler_handle this args)
       = [POST_request this endpoint body].
Proof.
  unfold KeywordResearchHandler_handle. cbv zeta.
  destruct (negb (truthy (args !! "keywords")) || negb (isArray (args !! "keywords"))
            || length_is_zero (args !! "keywords")); [ by left | ].
  destruct (negb (includes ["android"; "ios"] (or_default (args !! "platform") "android")));
    [ by left | ].
  right. do 2 eexists.
  rewrite requests_try_catch_rethrow, requests_bind_ret.
  apply fetchApiPost_requests.
Qed.

Tactic Notation "pick_member" integer(n) :=
  eexists; split;
  [ do n apply list_elem_of_further; apply list_elem_of_here
  | split; reflexivity ].

(** A name the [switch] knows is keyword research or one of the GET
    tools. *)
Lemma registered_handler_cases tool handle :
  registered_handler tool = Some handle ->
  (tool = "appvector_keyword_research"
   /\ handle = KeywordResearchHandler_handle handler_config)
  \/ exists gt, gt ∈ get_tools /\ tool = gt_name gt
                /\ handle = gt_handle gt handler_config.
Proof.
  unfold registered_handler.
  repeat match goal with
         | |- context [String.eqb tool ?s] =>
             destruct (String.eqb_spec tool s) as [-> | _];
             [ intros [= <-] | ]
         end; [ .. | discriminate ].
  5: by left.
  all: right; unfold get_tools;
    first [ pick_member 0 | pick_member 1 | pick_member 2 | pick_member 3
          | pick_member 4 | pick_member 5 | pick_member 6 | pick_member 7
          | pick_member 8 ].
Qed.

(** The requests of a call, by the name it carries. *)
Lemma dispatch_requests request :
  requests (dispatch request) = []
  \/ (exists endpoint queryParams,
        requests (dispatch request)
        = [GET_request handler_config endpoint queryParams])
  \/ (name request = "appvector_keyword_research"
      /\ exists endpoint body,
           requests (dispatch request) = [POST_request handler_config endpoint body]).
Proof.
  rewrite dispatch_route, requests_try_catch_error_envelope.
  destruct (registered_handler (name request)) as [handle | ] eqn:E; [ | by left ].
  apply registered_handler_cases in E as [[Hname ->] | (gt & Hin & Hname & ->)].
  - destruct (keyword_research_requests handler_config (arguments request))
      as [-> | H]; [ by left | right; right; by split ].
  - destruct (get_tool_requests gt handler_config (arguments request) Hin)
      as [-> | ->]; [ by left | right; left; by do 2 eexists ].
Qed.

(** X4. A call issues at most one outbound request, never a second one;
    the request goes to a path under the fixed base URL, announces and
    accepts JSON, and is a GET without a body unless the tool is keyword
    research, whose request is a POST with a body. *)
Theorem X4_at_most_one_request request :
  (length (requests (dispatch request)) <= 1)%nat
  /\ forall r,
       r ∈ requests (dispatch request) ->
       (exists path, url r = API_URL +:+ path)
       /\ ("Accept", "application/json") ∈ headers r
       /\ ("Content-Type", "application/json") ∈ headers r
       /\ (method r = "GET" /\ body r = None
           \/ method r = "POST" /\ is_Some (body r)
              /\ name request = "appvector_keyword_research").
Proof.
  destruct (dispatch_requests request)
    as [-> | [(endpoint & q & ->) | (Hname & endpoint & b & ->)]].
  - split; [ cbn; lia | ]. intros r H. by apply elem_of_nil in H.
  - split; [ cbn; lia | ]. intros r H. apply list_elem_of_singleton in H as ->.
    unfold GET_request. cbn [url headers method body handler_config apiUrl].
    split; [ by eexists | ].
    destruct (negb (String.eqb (apiToken handler_config) ""));
      repeat split;
      first [ apply list_elem_of_here
            | apply list_elem_of_further, list_elem_of_here
            | left; split; reflexivity ].
  - split; [ cbn; lia | ]. intros r H. apply list_elem_of_singleton in H as ->.
    unfold POST_request. cbn [url headers method body handler_config apiUrl].
    split; [ by eexists | ].
    repeat split;
      first [ apply list_elem_of_here
            | apply list_elem_of_further, list_elem_of_here
            | right; split; [ reflexivity | split; [ by eexists | done ] ] ].
Qed.

Lemma API_TOKEN_set token :
  API_TOKEN = token /\ token <> ""
  <-> APPVECTOR_TOKEN = Some token /\ token <> "".
Proof.
  unfold API_TOKEN. destruct APPVECTOR_TOKEN as [t | ].
  - destruct (String.eqb_spec t "") as [-> | Hne]; cbn [negb].
    + split; [ intros [<- H]; done | intros [[= <-] H]; done ].
    + split; [ by intros [<- _] | by intros [[= <-] _] ].
  - split; [ intros [<- H]; done | intros [[=] _] ].
Qed.

(** X5. On a GET request of any call the [Authorization] header is sent
    exactly when the environment holds a token that is not empty, and its
    value is then [Token ] followed by that token; an empty token counts
    as none. *)
Theorem X5_get_authorization request r value :
  r ∈ requests (dispatch request) ->
  method r = "GET" ->
  ("Authorization", value) ∈ headers r
  <-> exists token,
        APPVECTOR_TOKEN = Some token /\ token <> ""
        /\ value = "Token " +:+ token.
Proof.
  intros Hin Hget.
  destruct (dispatch_requests request)
    as [E | [(endpoint & q & E) | (_ & endpoint & b & E)]];
    rewrite E in Hin; [ by apply elem_of_nil in Hin | | ];
    apply list_elem_of_singleton in Hin as ->; [ | discriminate ].
  unfold GET_request. cbn [headers handler_config apiToken].
  destruct (String.eqb_spec API_TOKEN "") as [Hempty | Hset]; cbn [negb].
  - split.
    + intros H. repeat (apply elem_of_cons in H as [[=] | H]).
      by apply elem_of_nil in H.
    + intros (token & Henv & Hne & _). exfalso.
      destruct (proj2 (API_TOKEN_set token) (conj Henv Hne)) as [Heq _]. congruence.
  - split.
    + intros H. repeat (apply elem_of_cons in H as [H | H]);
        [ discriminate | discriminate | | by apply elem_of_nil in H ].
      injection H as ->. exists API_TOKEN.
      destruct (proj1 (API_TOKEN_set API_TOKEN) (conj eq_refl Hset)) as [Henv _].
      done.
    + intros (token & Henv & Hne & ->).
      destruct (proj2 (API_TOKEN_set token) (conj Henv Hne)) as [-> _].
      do 2 apply list_elem_of_further. apply list_elem_of_here.
Qed.

Lemma handler_returns_text {A} (m : M A) (f : A -> Envelope) prefix envelope :
  outcome (try_catch (let! x := m in ret (f x)) (rethrow prefix)) = Normal envelope ->
  exists x, envelope = f x.
Proof.
  destruct m as [log [a | e]]; cbn; [ | discriminate ].
  intros [= <-]. by exists a.
Qed.

(** X6. Every call, whatever its name and arguments and whatever the
    upstream does, ends with an envelope that holds exactly one block, of
    type [text]; no fault leaves the dispatcher. *)
Theorem X6_one_text_block request :
  exists t,
    outcome (dispatch request)
    = Normal {| content := [ {| type := "text"; text := t |} ] |}.
Proof.
  rewrite dispatch_route.
  destruct (registered_handler (name request)) as [handle | ] eqn:E;
    [ | by eexists ].
  destruct (handle (arguments request)) as [log [envelope | e]] eqn:Hrun;
    [ | by eexists ].
  cbn. assert (Hout : outcome (handle (arguments request)) = Normal envelope)
    by (by rewrite Hrun).
  clear Hrun. revert Hout.
  apply registered_handler_cases in E as [[_ ->] | (gt & Hin & _ & ->)].
  - unfold KeywordResearchHandler_handle. cbv zeta.
    repeat match goal with
           | |- context [if ?b then throw _ else _] => destruct b; [ discriminate | ]
           end.
    intros H. apply handler_returns_text in H as [x ->]. by eexists.
  - unfold get_tools in Hin.
    destruct_member Hin; cbn [gt_handle]; unfold_handle; unfold UserJobsHandler_handle;
      repeat match goal with
             | |- context [if ?b then throw _ else _] => destruct b; [ discriminate | ]
             end;
      intros H; apply handler_returns_text in H as [x ->]; by eexists.
Qed.

(** ** The catalog and the switch *)

Ltac unfold_any_handle :=
  unfold_handle; unfold UserJobsHandler_handle, KeywordResearchHandler_handle;
  cbv zeta.

(** X7. The answer [Unknown tool] is given exactly to the names outside
    the catalog: a listed tool never gets it, whatever its arguments, and
    an unlisted name always does, without any outbound request. *)
Theorem X7_unknown_tool_iff_unlisted tool args :
  dispatch (mkCall tool args)
  = ([], Normal (text_envelope ("Error: Unknown tool: " +:+ tool)))
  <-> tool ∉ tool_names.
Proof.
  split.
  - intros Hrun Hin. revert Hrun.
    unfold tool_names, tools in Hin. cbn [map tool_name] in Hin.
    destruct_member Hin; route_to_handler; unfold_any_handle;
      repeat match goal with
             | |- context [if ?b then throw _ else _] =>
                 destruct b; [ cbn; intros [= H]; discriminate H | ]
             end;
      intros H; apply (f_equal requests) in H; revert H;
      rewrite requests_try_catch_error_envelope, requests_try_catch_rethrow,
        requests_bind_ret, ?fetchApi_requests, ?fetchApiPost_requests;
      discriminate.
  - intros H. rewrite dispatch_route. cbn [name arguments].
    by rewrite (registered_handler_unknown _ H).
Qed.

(** X8. For every tool of the catalog and every argument its schema
    lists as required, a call in which that argument is missing or is the
    empty string issues no outbound request and returns an error envelope
    with the message of a required-field check. *)
Theorem X8_required_arguments_are_checked t field args :
  t ∈ tools ->
  field ∈ required t ->
  truthy (args !! field) = false ->
  requests (dispatch (mkCall (tool_name t) args)) = []
  /\ exists message,
       message ∈ validation_messages
       /\ outcome (dispatch (mkCall (tool_name t) args))
          = Normal (text_envelope ("Error: " +:+ message)).
Proof.
  unfold tools. intros Ht Hfield Hfalsy.
  destruct_member Ht; cbn [required tool_name] in *; destruct_member Hfield;
    route_to_handler; unfold_any_handle; rewrite ?Hfalsy; cbn [negb orb];
    try destruct (negb (truthy (args !! "app")));
    (split; [ reflexivity | ]);
    eexists; (split; [ | reflexivity ]);
    apply list_elem_of_In; cbn; tauto.
Qed.

(** X9. In the two keyword-rank tools the check on [app] comes first:
    with [app] given and [keywords] missing or empty the call returns
    [Error: Keywords are required] and issues no request. *)
Theorem X9_keywords_are_required tool args :
  tool ∈ ["appvector_apple_keyword_rank"; "appvector_android_keyword_rank"] ->
  truthy (args !! "app") = true ->
  truthy (args !! "keywords") = false ->
  dispatch (mkCall tool args)
  = ([], Normal (text_envelope "Error: Keywords are required")).
Proof.
  intros H Happ Hkw.
  destruct_member H; route_to_handler; unfold_any_handle;
    rewrite Happ, Hkw; reflexivity.
Qed.

(** ** Keyword research over POST *)

(** X10. A keyword research call with a non-empty list of keywords and a
    platform that is [android] (also by default) or [ios] sends one POST
    to the path of that platform, with the keywords, country, language and
    platform as its body. A success answer is returned pretty-printed; a
    failure status is reported with the status and its text, the body of
    the answer being left unread; a failed request or an unreadable answer
    is reported with the message of the failure. *)
Theorem X10_keyword_research_outcomes args k ks p :
  args !! "keywords" = Some (VArr (k :: ks)) ->
  (args !! "platform" = None /\ p = "android")
  \/ (args !! "platform" = Some (VStr p) /\ (p = "android" \/ p = "ios")) ->
  let request :=
    POST_request handler_config ("/keyword-research/" +:+ p +:+ "/")
      [("keywords", Some (VArr (k :: ks)));
       ("country", Some (or_default (args !! "country") "in"));
       ("language", Some (or_default (args !! "language") "en"));
       ("platform", Some (VStr p))] in
  let answered t :=
    dispatch (mkCall "appvector_keyword_research" args)
    = ([request], Normal (text_envelope t)) in
  (forall r j,
     upstream request = Resolves r -> ok r = true -> response_json r = Normal j ->
     answered (JSON_stringify j))
  /\ (forall r,
        upstream request = Resolves r -> ok r = false ->
        answered ("Error: Failed to fetch keyword research data: API request failed: "
                  +:+ String_of_int (status r) +:+ " " +:+ statusText r))
  /\ (forall e,
        upstream request = Rejects e ->
        answered ("Error: Failed to fetch keyword research data: " +:+ message_of e))
  /\ (forall r e,
        upstream request = Resolves r -> ok r = true -> response_json r = Abrupt e ->
        answered ("Error: Failed to fetch keyword research data: " +:+ message_of e)).
Proof.
  intros Hkw Hplatform. cbv zeta.
  assert (Hrun :
    dispatch (mkCall "appvector_keyword_research" args)
    = try_catch
        (try_catch
           (let! result :=
              fetchApiPost handler_config ("/keyword-research/" +:+ p +:+ "/")
                [("keywords", Some (VArr (k :: ks)));
                 ("country", Some (or_default (args !! "country") "in"));
                 ("language", Some (or_default (args !! "language") "en"));
                 ("platform", Some (VStr p))] in
            ret (json_envelope result))
           (rethrow "Failed to fetch keyword research data"))
        error_envelope).
  { route_to_handler. unfold KeywordResearchHandler_handle. cbv zeta.
    rewrite Hkw. destruct Hplatform as [[-> ->] | [-> [-> | ->]]]; reflexivity. }
  rewrite Hrun. unfold fetchApiPost, fetch. cbv zeta.
  fold (POST_request handler_config ("/keyword-research/" +:+ p +:+ "/")
          [("keywords", Some (VArr (k :: ks)));
           ("country", Some (or_default (args !! "country") "in"));
           ("language", Some (or_default (args !! "language") "en"));
           ("platform", Some (VStr p))]).
  repeat apply conj.
  - intros r j -> Hok Hjson. cbn. rewrite Hok. cbn. rewrite Hjson. reflexivity.
  - intros r -> Hok. cbn. rewrite Hok. reflexivity.
  - intros e ->. reflexivity.
  - intros r e -> Hok Hjson. cbn. rewrite Hok. cbn. rewrite Hjson. reflexivity.
Qed.

(** ** Optional arguments *)

Ltac destruct_triple H :=
  repeat (apply elem_of_cons in H as [[= -> -> ->] | H]);
  [ .. | by apply elem_of_nil in H ].

(** Reading a query field: earlier fields are passed over whether they
    are sent or not. *)
Ltac pass_fields :=
  repeat (rewrite get_sent_pair_cons; cbn [String.eqb Ascii.eqb Bool.eqb];
          try match goal with
              | |- context [if is_sent ?v then URLSearchParams_get ?f ?q
                            else URLSearchParams_get ?f ?q] =>
                  replace (if is_sent v then URLSearchParams_get f q
                           else URLSearchParams_get f q)
                    with (URLSearchParams_get f q) by (by destruct (is_sent v))
              end).

Lemma optional_default_in_query queryParams field default args :
  (queryParams, field, default) ∈ optional_defaults ->
  URLSearchParams_get field (NormalizedQuery (queryParams args))
  = match args !! field with
    | None => Some default
    | Some (VStr "") => None
    | Some v => Some (ToString v)
    end.
Proof.
  unfold optional_defaults. intros H.
  destruct_triple H; rewrite NormalizedQuery_omap; unfold_queryParams;
    try destruct (truthy (args !! "date"));
    cbn [obj_set String.eqb Ascii.eqb Bool.eqb];
    pass_fields;
    match goal with
    | |- context [or_default (args !! ?f) _] =>
        destruct (args !! f) as [[[ | c s] | items] | ]
    end; reflexivity.
Qed.

(** X11. An optional argument with a default reaches the query as
    follows: omitted, the default is sent; given as the empty string, the
    parameter is left out of the query (the default is not used); given
    as anything else, it is sent as it is. *)
Theorem X11_optional_defaults queryParams field default args :
  (queryParams, field, default) ∈ optional_defaults ->
  URLSearchParams_get field (NormalizedQuery (queryParams args))
  = match args !! field with
    | None => Some default
    | Some (VStr "") => None
    | Some v => Some (ToString v)
    end.
Proof. apply optional_default_in_query. Qed.

(** X12. A start or end date that is given and not empty is sent as it
    is, with no check of its form, by every handler that takes a date
    range (in the keyword-rank tools, when no single date takes its
    place). *)
Theorem X12_supplied_dates_are_forwarded handle queryParams reads_date field args :
  (handle, queryParams, reads_date) ∈ date_range_handlers ->
  field ∈ ["start_date"; "end_date"] ->
  (reads_date = true -> truthy (args !! "date") = false) ->
  truthy (args !! field) = true ->
  URLSearchParams_get field (NormalizedQuery (queryParams args))
  = ToString <$> (args !! field).
Proof.
  unfold date_range_handlers. intros H Hfield Hdate Hgiven.
  assert (Hsent : is_sent (args !! field) = true)
    by (destruct (args !! field) as [[s | items] | ]; done).
  destruct_triple H; destruct_member Hfield;
    rewrite NormalizedQuery_omap; unfold_queryParams;
    rewrite ?Hdate by reflexivity;
    cbn [obj_set String.eqb Ascii.eqb Bool.eqb];
    unfold js_or; rewrite ?Hgiven;
    pass_fields; rewrite ?Hsent; try reflexivity.
Qed.

(** ** Rendering of dates *)

Lemma string_app_inj_suffix (s1 s2 t1 t2 : string) :
  s1 +:+ t1 = s2 +:+ t2 -> String.length t1 = String.length t2 ->
  s1 = s2 /\ t1 = t2.
Proof.
  revert s2. induction s1 as [ | c s1 IH ]; intros [ | c' s2 ] H Hlen.
  - done.
  - apply (f_equal String.length) in H.
    change (String.length t1 = S (String.length (s2 +:+ t2))) in H.
    rewrite string_length_app in H. lia.
  - apply (f_equal String.length) in H.
    change (S (String.length (s1 +:+ t1)) = String.length t2) in H.
    rewrite string_length_app in H. lia.
  - injection H as -> H. destruct (IH _ H Hlen) as [-> ->]. done.
Qed.

Lemma two_digits_inj n1 n2 :
  0 <= n1 < 100 -> 0 <= n2 < 100 -> two_digits n1 = two_digits n2 -> n1 = n2.
Proof.
  intros H1 H2 H. unfold two_digits in H. injection H as Hhi Hlo.
  apply (f_equal N_of_ascii) in Hhi, Hlo.
  assert (Hd : forall n, 0 <= n < 100 ->
                 (48 + Z.to_N (n / 10) < 256)%N /\ (48 + Z.to_N (n mod 10) < 256)%N).
  { intros n Hn. assert (0 <= n / 10 < 10) by (Z.div_mod_to_equations; lia).
    assert (0 <= n mod 10 < 10) by (Z.div_mod_to_equations; lia). lia. }
  destruct (Hd n1 H1), (Hd n2 H2).
  rewrite !N_ascii_embedding in Hhi, Hlo by done.
  assert (n1 / 10 = n2 / 10)
    by (assert (0 <= n1 / 10 /\ 0 <= n2 / 10) by (Z.div_mod_to_equations; lia); lia).
  assert (n1 mod 10 = n2 mod 10)
    by (assert (0 <= n1 mod 10 /\ 0 <= n2 mod 10) by (Z.div_mod_to_equations; lia);
        lia).
  Z.div_mod_to_equations. lia.
Qed.

Lemma civil_of_day_inj z1 z2 : civil_of_day z1 = civil_of_day z2 -> z1 = z2.
Proof.
  intros H. rewrite <- (day_of_civil_of_day z1), <- (day_of_civil_of_day z2).
  by rewrite H.
Qed.

(** X13. Two dates are rendered alike only when they are the same
    calendar day: the rendering loses nothing of the date. *)
Theorem X13_formatDate_injective t1 t2 :
  formatDate t1 = formatDate t2 -> t1 = t2.
Proof.
  rewrite !formatDate_digits. intros H.
  destruct (civil_of_day_range (localDay t1)) as [Hm1 Hd1].
  destruct (civil_of_day_range (localDay t2)) as [Hm2 Hd2].
  apply string_app_inj_suffix in H as [Hy H]; [ | reflexivity ].
  apply (inj pretty) in Hy.
  injection H as Hmm Hdd.
  assert (Hmonth : getMonth t1 + 1 = getMonth t2 + 1).
  { apply two_digits_inj; [ unfold getMonth; lia | unfold getMonth; lia | ].
    unfold two_digits. by rewrite Hmm, Hdd. }
  assert (Hday : getDate t1 = getDate t2).
  { apply two_digits_inj; [ unfold getDate; lia | unfold getDate; lia | ].
    unfold two_digits. congruence. }
  destruct t1 as [z1], t2 as [z2]. f_equal. apply civil_of_day_inj.
  unfold getFullYear, getMonth, getDate in *. cbn [localDay] in *.
  destruct (civil_of_day z1) as [[y1 m1] d1], (civil_of_day z2) as [[y2 m2] d2].
  cbn [fst snd] in *. f_equal; [ f_equal | ]; lia.
Qed.

(** ** Structure of the query string *)

Lemma count_char_app c (s1 s2 : string) :
  count_char c (s1 +:+ s2) = (count_char c s1 + count_char c s2)%nat.
Proof.
  induction s1 as [ | c' s1 IH ]; [ reflexivity | ].
  change (count_char c (String c' s1 +:+ s2))
    with ((if Ascii.eqb c' c then 1 else 0) + count_char c (s1 +:+ s2))%nat.
  rewrite IH. cbn [count_char]. lia.
Qed.

(** An encoded byte holds none of the marks that structure a query. *)
Lemma form_encode_byte_no_mark b :
  count_char "=" (form_encode_byte b) = 0%nat
  /\ count_char "&" (form_encode_byte b) = 0%nat
  /\ count_char "?" (form_encode_byte b) = 0%nat.
Proof.
  destruct b as [[] [] [] [] [] [] [] []]; vm_compute; done.
Qed.

Lemma form_encode_no_mark s :
  count_char "=" (form_encode s) = 0%nat
  /\ count_char "&" (form_encode s) = 0%nat
  /\ count_char "?" (form_encode s) = 0%nat.
Proof.
  induction s as [ | b s (IH1 & IH2 & IH3) ]; [ done | ].
  cbn [form_encode]. rewrite !count_char_app, IH1, IH2, IH3.
  destruct (form_encode_byte_no_mark b) as (-> & -> & ->). done.
Qed.

Lemma pair_marks (kv : string * string) :
  count_char "=" (form_encode kv.1 +:+ "=" +:+ form_encode kv.2) = 1%nat
  /\ count_char "&" (form_encode kv.1 +:+ "=" +:+ form_encode kv.2) = 0%nat
  /\ count_char "?" (form_encode kv.1 +:+ "=" +:+ form_encode kv.2) = 0%nat.
Proof.
  rewrite !count_char_app.
  destruct (form_encode_no_mark kv.1) as (-> & -> & ->).
  destruct (form_encode_no_mark kv.2) as (-> & -> & ->). done.
Qed.

Lemma toString_marks kv q :
  count_char "=" (URLSearchParams_toString (kv :: q)) = S (length q)
  /\ count_char "&" (URLSearchParams_toString (kv :: q)) = length q
  /\ count_char "?" (URLSearchParams_toString (kv :: q)) = 0%nat.
Proof.
  revert kv. induction q as [ | kv' q IH ]; intros kv.
  - unfold URLSearchParams_toString. cbn [map String.concat length].
    apply pair_marks.
  - destruct (IH kv') as (IH1 & IH2 & IH3).
    destruct (pair_marks kv) as (H1 & H2 & H3).
    change (URLSearchParams_toString (kv :: kv' :: q))
      with ((form_encode kv.1 +:+ "=" +:+ form_encode kv.2)
            +:+ "&" +:+ URLSearchParams_toString (kv' :: q)).
    rewrite !(count_char_app _ (form_encode kv.1 +:+ "=" +:+ form_encode kv.2)),
      !(count_char_app _ "&"), H1, H2, H3, IH1, IH2, IH3.
    cbn [length]. done.
Qed.

(** X14. Whatever the names and values hold, the query string has one
    equals sign for each parameter sent, one ampersand between any two of
    them and a single question mark in front, or is empty when nothing is
    sent: a value cannot add or break a parameter. *)
Theorem X14_query_string_structure params :
  let n := length (NormalizedQuery params) in
  count_char "=" (buildQueryString params) = n
  /\ count_char "&" (buildQueryString params) = (n - 1)%nat
  /\ count_char "?" (buildQueryString params) = (if decide (n = 0%nat) then 0 else 1)%nat.
Proof.
  cbv zeta. rewrite buildQueryString_cases.
  destruct (NormalizedQuery params) as [ | kv q ]; [ done | ].
  destruct (toString_marks kv q) as (H1 & H2 & H3).
  rewrite !(count_char_app _ "?"), H1, H2, H3. cbn [length].
  repeat split; cbn; lia.
Qed.

(** X15. The parameters of two objects put one after the other are the
    parameters of the first followed by those of the second, and the
    names sent are, in order, among the names of the object. *)
Theorem X15_query_keeps_order (params1 params2 : object) :
  NormalizedQuery (params1 ++ params2)%list
  = (NormalizedQuery params1 ++ NormalizedQuery params2)%list
  /\ sublist (NormalizedQuery params1).*1 params1.*1.
Proof.
  rewrite !NormalizedQuery_omap. split; [ apply omap_app | ].
  induction params1 as [ | [key v] rest IH ]; [ done | ].
  change (omap sent_pair ((key, v) :: rest))
    with (match sent_pair (key, v) with
          | Some y => y :: omap sent_pair rest
          | None => omap sent_pair rest
          end).
  unfold sent_pair at 1. cbn [fst snd].
  destruct v as [x | ]; [ destruct (is_sent (Some x)) | ]; cbn [fmap list_fmap fst].
  - by apply sublist_skip.
  - by apply sublist_cons.
  - by apply sublist_cons.
Qed.

(** ** The schemas against the handlers *)

(** X16. The defaults the catalog declares are the defaults the handlers
    apply: for a GET tool a property left out of the call is sent in the
    query with its declared default, and a keyword research call that
    passes its checks carries the declared default of each property left
    out in the body of its one request. *)
Theorem X16_declared_defaults_are_applied tool property default args :
  (tool, property, default) ∈ schema_defaults ->
  args !! property = None ->
  (forall gt,
     gt ∈ get_tools -> gt_name gt = tool ->
     URLSearchParams_get property (NormalizedQuery (gt_queryParams gt args))
     = Some default)
  /\ (tool = "appvector_keyword_research" ->
      forall k ks,
        args !! "keywords" = Some (VArr (k :: ks)) ->
        args !! "platform" = None
        \/ args !! "platform" = Some (VStr "android")
        \/ args !! "platform" = Some (VStr "ios") ->
        exists endpoint body,
          requests (dispatch (mkCall tool args))
          = [POST_request handler_config endpoint body]
          /\ (property, Some (VStr default)) ∈ body).
Proof.
  unfold schema_defaults. intros H Hnone. split.
  - intros gt Hgt Hname. unfold get_tools in Hgt.
    destruct_triple H; destruct_member Hgt; cbn [gt_name] in Hname;
      try discriminate Hname; cbn [gt_queryParams];
      match goal with
      | |- _ = Some ?d =>
          rewrite (optional_default_in_query _ _ d);
          [ by rewrite Hnone
          | unfold optional_defaults; apply list_elem_of_In; cbn; tauto ]
      end.
  - intros Htool k ks Hkw Hplatform.
    assert (Hok : includes ["android"; "ios"] (or_default (args !! "platform") "android")
                  = true)
      by (destruct Hplatform as [-> | [-> | ->]]; reflexivity).
    destruct_triple H; try discriminate Htool; do 2 eexists;
      route_to_handler; unfold KeywordResearchHandler_handle; cbv zeta;
      rewrite requests_try_catch_error_envelope, Hkw, Hok;
      cbn [truthy isArray length_is_zero negb orb];
      rewrite requests_try_catch_rethrow, requests_bind_ret, fetchApiPost_requests;
      (split; [ reflexivity | ]);
      rewrite Hnone; cbn [or_default];
      apply list_elem_of_In; cbn; tauto.
Qed.

(** X17. An argument that the schema of a tool does not declare is
    ignored: adding it to a call, with any value, changes neither the
    request sent nor the envelope returned. *)
Theorem X17_undeclared_arguments_are_ignored tool properties key v args :
  (tool, properties) ∈ schema_properties ->
  key ∉ properties ->
  dispatch (mkCall tool (<[key := v]> args)) = dispatch (mkCall tool args).
Proof.
  unfold schema_properties. intros H Hkey.
  repeat (apply elem_of_cons in H as [[= -> ->] | H]);
    [ .. | by apply elem_of_nil in H ].
  all: repeat (apply not_elem_of_cons in Hkey as [? Hkey]).
  all: rewrite !dispatch_route;
    cbn [name arguments registered_handler String.eqb Ascii.eqb Bool.eqb];
    unfold_any_handle; unfold_queryParams;
    rewrite ?lookup_insert_ne by done; reflexivity.
Qed.

(** X18. An argument that a GET handler checks and finds given is sent
    in the query as it is. *)
Theorem X18_checked_arguments_are_forwarded gt field args :
  gt ∈ get_tools ->
  field ∈ gt_checked gt ->
  truthy (args !! field) = true ->
  URLSearchParams_get field (NormalizedQuery (gt_queryParams gt args))
  = ToString <$> (args !! field).
Proof.
  unfold get_tools. intros H Hfield Hgiven.
  assert (Hsent : is_sent (args !! field) = true)
    by (destruct (args !! field) as [[s | items] | ]; done).
  destruct_member H; cbn [gt_checked gt_queryParams] in *; destruct_member Hfield;
    rewrite NormalizedQuery_omap; unfold_queryParams;
    try destruct (truthy (args !! "date"));
    cbn [obj_set String.eqb Ascii.eqb Bool.eqb];
    pass_fields; rewrite ?Hsent; reflexivity.
Qed.

(** X19. The query of a GET tool never carries a parameter that the
    schema of the tool does not declare. *)
Theorem X19_query_names_are_declared gt properties args key txt :
  gt ∈ get_tools ->
  (gt_name gt, properties) ∈ schema_properties ->
  (key, txt) ∈ NormalizedQuery (gt_queryParams gt args) ->
  key ∈ properties.
Proof.
  unfold get_tools, schema_properties. intros H Hschema Hin.
  apply elem_of_NormalizedQuery in Hin as (x & Hin & _ & _). revert Hin.
  destruct_member H; cbn [gt_name gt_queryParams] in *;
    repeat (apply elem_of_cons in Hschema as [Hschema | Hschema];
            [ first [ injection Hschema as Hname Hprops; discriminate Hname
                    | injection Hschema as -> ] | ]);
    try (by apply elem_of_nil in Hschema);
    unfold_queryParams; try destruct (truthy (args !! "date"));
    cbn [obj_set String.eqb Ascii.eqb Bool.eqb];
    intros Hin;
    repeat (apply elem_of_cons in Hin as [Heq | Hin];
            [ apply (f_equal fst) in Heq; cbn [fst] in Heq; subst key;
              apply list_elem_of_In; cbn; tauto | ]);
    by apply elem_of_nil in Hin.
Qed.

End Properties.

(** * The theorems at concrete calls *)

(** ** Default dates *)



(** ** Unknown tools *)

(** C1, as stated, fails: the call of the unknown tool [no_such_tool]
    does not end in a fault; it returns the text envelope that known-tool
    failures use. *)
Lemma C1_unknown_tool_returns_envelope :
  ("no_such_tool" ∉ tool_names)
  /\ outcome (@dispatch offline (mkCall "no_such_tool" ∅))
     = Normal (text_envelope "Error: Unknown tool: no_such_tool")
  /\ ~ (exists e, outcome (@dispatch offline (mkCall "no_such_tool" ∅)) = Abrupt e).
Proof.
  split; [ compute_done | ].
  split; [ vm_compute; reflexivity | ].
  intros [e H]. vm_compute in H. discriminate.
Qed.

Lemma C1_witness :
  ("no_such_tool" ∉ tool_names)
  /\ @dispatch offline (mkCall "no_such_tool" ∅)
     = ([], Normal (text_envelope "Error: Unknown tool: no_such_tool")).
Proof.
  assert (H : "no_such_tool" ∉ tool_names) by compute_done.
  split; [ exact H | ].
  exact (@C1_unknown_tool_is_wrapped offline (mkCall "no_such_tool" ∅) H).
Defined.

(** ** Known tools *)

Lemma C2_witness :
  "appvector_user_jobs" ∈ tool_names
  /\ exists envelope,
       outcome (@dispatch offline (mkCall "appvector_user_jobs" ∅))
       = Normal envelope.
Proof.
  assert (H : "appvector_user_jobs" ∈ tool_names) by compute_done.
  split; [ exact H | ].
  destruct (@C2_known_tool_always_envelope offline
              (mkCall "appvector_user_jobs" ∅) H) as (handle & _ & _ & Hout).
  destruct (outcome (handle (arguments (mkCall "appvector_user_jobs" ∅))))
    as [envelope | e].
  - by exists envelope.
  - destruct Hout as (message & _ & Hout). by eexists.
Defined.

(** ** Authorization *)

(** C3 at a call the code can receive: with no token in the environment
    the keyword research call still sends an [Authorization] header, whose
    value is the bare scheme, while the user jobs call sends none. *)
Theorem C3_post_sends_authorization_without_token :
  @API_TOKEN (online None) = ""
  /\ request_line <$> requests (@dispatch (online None)
                                  (mkCall "appvector_keyword_research" fitness))
     = [ ("POST",
          "https://appvector.io/external-apis/api/keyword-research/android/",
          [("Accept", "application/json"); ("Content-Type", "application/json");
           ("Authorization", "Token ")]) ]
  /\ request_line <$> requests (@dispatch (online None)
                                  (mkCall "appvector_user_jobs" ∅))
     = [ ("GET", "https://appvector.io/external-apis/api/userjobs/",
          [("Accept", "application/json"); ("Content-Type", "application/json")]) ].
Proof. repeat split; vm_compute; reflexivity. Qed.

(** ** Keyword-rank dates *)

(** C4, as stated, fails: a [date] that is present but is the empty
    string does not reach the query, which carries the default range. *)
Lemma C4_empty_date_falls_back_to_range :
  empty_date !! "date" = Some (VStr "")
  /\ NormalizedQuery (@AndroidKeywordRankHandler_queryParams offline empty_date)
     = [ ("app", "com.spotify.music"); ("keywords", "music"); ("country", "in");
         ("language", "en"); ("start_date", "2025-08-27");
         ("end_date", "2025-09-26") ]
  /\ url <$> requests (@dispatch offline
                         (mkCall "appvector_android_keyword_rank" empty_date))
     = [ "https://appvector.io/external-apis/api/ranks/android/"
         +:+ "?app=com.spotify.music&keywords=music&country=in&language=en"
         +:+ "&start_date=2025-08-27&end_date=2025-09-26" ].
Proof. repeat split; vm_compute; reflexivity. Qed.

Lemma C4_witness :
  let query :=
    NormalizedQuery (@AndroidKeywordRankHandler_queryParams offline date_and_range) in
  truthy (date_and_range !! "app") = true
  /\ truthy (date_and_range !! "keywords") = true
  /\ truthy (date_and_range !! "date") = true
  /\ URLSearchParams_get "date" query = Some "2025-01-01"
  /\ URLSearchParams_get "start_date" query = None
  /\ URLSearchParams_get "end_date" query = None.
Proof.
  assert (Happ : truthy (date_and_range !! "app") = true) by reflexivity.
  assert (Hkw : truthy (date_and_range !! "keywords") = true) by reflexivity.
  assert (Hdate : truthy (date_and_range !! "date") = true) by reflexivity.
  assert (Hin : (@AndroidKeywordRankHandler_handle offline,
                 @AndroidKeywordRankHandler_queryParams offline, "/ranks/android/")
                ∈ @keyword_rank_handlers offline)
    by apply list_elem_of_further, list_elem_of_here.
  destruct (@C4_date_precedence offline _ _ _ (new_BaseHandler API_URL "")
              date_and_range Hin Happ Hkw) as (_ & Hwith & _).
  destruct (Hwith Hdate) as (Hd & _ & Hs & He).
  cbv zeta.
  repeat apply conj;
    [ exact Happ | exact Hkw | exact Hdate | exact Hd | exact Hs | exact He ].
Defined.

(** ** Keyword research *)

Lemma C7_witness :
  desktop !! "platform" = Some (VStr "desktop")
  /\ exists message,
       @KeywordResearchHandler_handle offline (new_BaseHandler API_URL "") desktop
       = ([], Abrupt (ErrorObject message))
       /\ (message = "Keywords array is required and must not be empty"
           \/ message = platform_error_message).
Proof.
  assert (Hp : desktop !! "platform" = Some (VStr "desktop")) by reflexivity.
  assert (Handroid : VStr "desktop" <> VStr "android") by compute_done.
  assert (Hios : VStr "desktop" <> VStr "ios") by compute_done.
  split; [ exact Hp | ].
  exact (proj1 (@C7_keyword_research_validation offline
                  (new_BaseHandler API_URL "") desktop)
           (VStr "desktop") Hp Handroid Hios).
Defined.

(** ** The required app identifier *)

Lemma C8_witness :
  "appvector_android_reviews" ∈ app_tools
  /\ exists message,
       message ∈ app_required_messages
       /\ @dispatch offline (mkCall "appvector_android_reviews" ∅)
          = ([], Normal (text_envelope ("Error: " +:+ message))).
Proof.
  assert (H : "appvector_android_reviews" ∈ app_tools) by compute_done.
  split; [ exact H | ].
  destruct (@C8_missing_app_is_rejected offline "appvector_android_reviews" H)
    as (message & Hm & Hd).
  exists message. split; [ exact Hm | ].
  apply Hd. reflexivity.
Defined.

Lemma C9_witness :
  "appvector_apple_rank" ∈ app_tools
  /\ @dispatch offline
       (mkCall "appvector_apple_rank" (<["app" := VStr ""]> {[ "country" := VStr "us" ]}))
     = @dispatch offline
         (mkCall "appvector_apple_rank" (delete "app" {[ "country" := VStr "us" ]})).
Proof.
  assert (H : "appvector_apple_rank" ∈ app_tools) by compute_done.
  split; [ exact H | ].
  exact (proj1 (@C9_empty_app_is_missing_app offline "appvector_apple_rank"
                  {[ "country" := VStr "us" ]} H)).
Defined.

(** ** Empty dates *)


(** ** Outcomes of the GET tools *)

Lemma X1_witness :
  outcome (@dispatch (online None) (mkCall "appvector_android_reviews" katana))
  = Normal (text_envelope "{}").
Proof.
  pose (tool := mkGetTool "appvector_android_reviews"
                  (@AndroidReviewsHandler_handle (online None))
                  (@AndroidReviewsHandler_queryParams (online None))
                  "/reviews/android/" "Failed to fetch Android reviews" ["app"]).
  assert (Hin : tool ∈ @get_tools (online None))
    by (do 5 apply list_elem_of_further; apply list_elem_of_here).
  assert (Hchecks : checks_pass tool katana)
    by (apply Forall_cons; split; [ reflexivity | apply Forall_nil_2 ]).
  exact (f_equal snd
           (@X1_get_success (online None) tool katana
              {| ok := true; status := 200; statusText := "OK";
                 response_text := Normal "{}"; response_json := Normal "{}" |}
              "{}" Hin Hchecks eq_refl eq_refl eq_refl)).
Defined.

Lemma X2_witness :
  outcome (@dispatch refusing (mkCall "appvector_android_reviews" katana))
  = Normal (text_envelope
              ("Error: Failed to fetch Android reviews: "
               +:+ "API request failed (401): Invalid token")).
Proof.
  pose (tool := mkGetTool "appvector_android_reviews"
                  (@AndroidReviewsHandler_handle refusing)
                  (@AndroidReviewsHandler_queryParams refusing)
                  "/reviews/android/" "Failed to fetch Android reviews" ["app"]).
  assert (Hin : tool ∈ @get_tools refusing)
    by (do 5 apply list_elem_of_further; apply list_elem_of_here).
  assert (Hchecks : checks_pass tool katana)
    by (apply Forall_cons; split; [ reflexivity | apply Forall_nil_2 ]).
  exact (f_equal snd
           (@X2_get_status_error refusing tool katana
              {| ok := false; status := 401; statusText := "Unauthorized";
                 response_text := Normal "Invalid token";
                 response_json := Abrupt (ErrorObject "Unexpected token I") |}
              "Invalid token" Hin Hchecks eq_refl eq_refl eq_refl)).
Defined.

Lemma X3_witness :
  outcome (@dispatch offline (mkCall "appvector_user_jobs" ∅))
  = Normal (text_envelope "Error: Failed to fetch user jobs: fetch failed")
  /\ outcome (@dispatch garbled (mkCall "appvector_user_jobs" ∅))
     = Normal (text_envelope "Error: Failed to fetch user jobs: Unexpected token <").
Proof.
  split.
  - pose (tool := mkGetTool "appvector_user_jobs" (@UserJobsHandler_handle offline)
                    (fun _ => []) "/userjobs/" "Failed to fetch user jobs" []).
    assert (Hin : tool ∈ @get_tools offline)
      by (do 8 apply list_elem_of_further; apply list_elem_of_here).
    assert (Hchecks : checks_pass tool ∅) by apply Forall_nil_2.
    exact (f_equal snd
             (proj1 (@X3_get_transport_failure offline tool ∅ Hin Hchecks)
                (ErrorObject "fetch failed") eq_refl)).
  - pose (tool := mkGetTool "appvector_user_jobs" (@UserJobsHandler_handle garbled)
                    (fun _ => []) "/userjobs/" "Failed to fetch user jobs" []).
    assert (Hin : tool ∈ @get_tools garbled)
      by (do 8 apply list_elem_of_further; apply list_elem_of_here).
    assert (Hchecks : checks_pass tool ∅) by apply Forall_nil_2.
    exact (f_equal snd
             (proj1 (proj2 (@X3_get_transport_failure garbled tool ∅ Hin Hchecks))
                {| ok := true; status := 200; statusText := "OK";
                   response_text := Normal "<html>";
                   response_json := Abrupt (ErrorObject "Unexpected token <") |}
                (ErrorObject "Unexpected token <") eq_refl eq_refl eq_refl)).
Defined.

(** ** Requests of any call *)

Lemma X4_witness :
  let r := GET_request (@handler_config offline) "/userjobs/" [] in
  r ∈ requests (@dispatch offline (mkCall "appvector_user_jobs" ∅))
  /\ (exists path, url r = API_URL +:+ path)
  /\ method r = "GET".
Proof.
  cbv zeta.
  assert (Hin : GET_request (@handler_config offline) "/userjobs/" []
                ∈ requests (@dispatch offline (mkCall "appvector_user_jobs" ∅)))
    by (vm_compute; apply list_elem_of_here).
  destruct (proj2 (@X4_at_most_one_request offline (mkCall "appvector_user_jobs" ∅))
              _ Hin) as (Hurl & _ & _ & _).
  repeat split; [ exact Hin | exact Hurl ].
Defined.

Lemma X5_witness :
  let r := GET_request (@handler_config (online (Some "secret"))) "/userjobs/" [] in
  r ∈ requests (@dispatch (online (Some "secret")) (mkCall "appvector_user_jobs" ∅))
  /\ method r = "GET"
  /\ ("Authorization", "Token secret") ∈ headers r.
Proof.
  cbv zeta.
  assert (Hin : GET_request (@handler_config (online (Some "secret"))) "/userjobs/" []
                ∈ requests (@dispatch (online (Some "secret"))
                              (mkCall "appvector_user_jobs" ∅)))
    by (vm_compute; apply list_elem_of_here).
  assert (Hget : method (GET_request (@handler_config (online (Some "secret")))
                           "/userjobs/" []) = "GET") by reflexivity.
  assert (Hne : "secret" <> "") by discriminate.
  repeat split; [ exact Hin | ].
  exact (proj2 (@X5_get_authorization (online (Some "secret"))
                  (mkCall "appvector_user_jobs" ∅) _ "Token secret" Hin Hget)
           (ex_intro _ "secret" (conj eq_refl (conj Hne eq_refl)))).
Defined.

(** ** Required arguments *)

Lemma X8_witness :
  requests (@dispatch offline (mkCall "appvector_keyword_research" ∅)) = [].
Proof.
  assert (Ht : mkTool "appvector_keyword_research" ["keywords"] ∈ tools)
    by (do 4 apply list_elem_of_further; apply list_elem_of_here).
  assert (Hfield : "keywords" ∈ required (mkTool "appvector_keyword_research" ["keywords"]))
    by apply list_elem_of_here.
  exact (proj1 (@X8_required_arguments_are_checked offline _ "keywords" ∅
                  Ht Hfield eq_refl)).
Defined.

Lemma X9_witness :
  @dispatch offline (mkCall "appvector_android_keyword_rank" katana)
  = ([], Normal (text_envelope "Error: Keywords are required")).
Proof.
  assert (Hin : "appvector_android_keyword_rank"
                ∈ ["appvector_apple_keyword_rank"; "appvector_android_keyword_rank"])
    by compute_done.
  exact (@X9_keywords_are_required offline _ katana Hin eq_refl eq_refl).
Defined.

(** ** Keyword research *)

Lemma X10_witness :
  outcome (@dispatch (online None) (mkCall "appvector_keyword_research" fitness))
  = Normal (text_envelope "{}").
Proof.
  assert (Hkw : fitness !! "keywords" = Some (VArr ["fitness"])) by reflexivity.
  assert (Hplatform :
            (fitness !! "platform" = None /\ "android" = "android")
            \/ (fitness !! "platform" = Some (VStr "android")
                /\ ("android" = "android" \/ "android" = "ios")))
    by (left; split; reflexivity).
  exact (f_equal snd
           (proj1 (@X10_keyword_research_outcomes (online None) fitness "fitness" []
                     "android" Hkw Hplatform)
              {| ok := true; status := 200; statusText := "OK";
                 response_text := Normal "{}"; response_json := Normal "{}" |}
              "{}" eq_refl eq_refl eq_refl)).
Defined.

(** ** Optional arguments and dates *)

Lemma X11_witness :
  URLSearchParams_get "language"
    (NormalizedQuery (@AndroidReviewsHandler_queryParams offline katana))
  = Some "en".
Proof.
  assert (Hin : (@AndroidReviewsHandler_queryParams offline, "language", "en")
                ∈ @optional_defaults offline)
    by (do 9 apply list_elem_of_further; apply list_elem_of_here).
  exact (@X11_optional_defaults offline _ _ _ katana Hin).
Defined.

Lemma X12_witness :
  URLSearchParams_get "start_date"
    (NormalizedQuery
       (@AndroidReviewsHandler_queryParams offline
          (<["start_date" := VStr "2025-08-01"]> katana)))
  = Some "2025-08-01".
Proof.
  assert (Hin : (@AndroidReviewsHandler_handle offline,
                 @AndroidReviewsHandler_queryParams offline, false)
                ∈ @date_range_handlers offline)
    by (do 5 apply list_elem_of_further; apply list_elem_of_here).
  assert (Hfield : "start_date" ∈ ["start_date"; "end_date"]) by apply list_elem_of_here.
  assert (Hdate : false = true ->
                  truthy (<["start_date" := VStr "2025-08-01"]> katana !! "date") = false)
    by discriminate.
  exact (@X12_supplied_dates_are_forwarded offline _ _ _ "start_date"
           (<["start_date" := VStr "2025-08-01"]> katana) Hin Hfield Hdate eq_refl).
Defined.

Lemma X13_witness : date_of 2025 9 26 = mkDate 20357.
Proof.
  assert (H : formatDate (date_of 2025 9 26) = formatDate (mkDate 20357))
    by reflexivity.
  exact (X13_formatDate_injective _ _ H).
Defined.

(** ** The schemas against the handlers *)

Lemma X16_witness :
  URLSearchParams_get "country"
    (NormalizedQuery (@AppleRankHandler_queryParams offline katana))
  = Some "in".
Proof.
  assert (Hin : ("appvector_apple_rank", "country", "in") ∈ schema_defaults)
    by compute_done.
  assert (Hnone : katana !! "country" = None) by reflexivity.
  pose (tool := mkGetTool "appvector_apple_rank" (@AppleRankHandler_handle offline)
                  (@AppleRankHandler_queryParams offline) "/category/rank/apple/"
                  "Failed to fetch Apple category ranks" ["app"]).
  assert (Htool : tool ∈ @get_tools offline)
    by (apply list_elem_of_further, list_elem_of_here).
  exact (proj1 (@X16_declared_defaults_are_applied offline _ _ _ katana Hin Hnone)
           tool Htool eq_refl).
Defined.

Lemma X17_witness :
  @dispatch offline
    (mkCall "appvector_android_reviews" (<["country" := VStr "us"]> katana))
  = @dispatch offline (mkCall "appvector_android_reviews" katana).
Proof.
  assert (Hin : ("appvector_android_reviews",
                 ["app"; "language"; "start_date"; "end_date"]) ∈ schema_properties)
    by compute_done.
  assert (Hkey : "country" ∉ ["app"; "language"; "start_date"; "end_date"])
    by compute_done.
  exact (@X17_undeclared_arguments_are_ignored offline _ _ "country" (VStr "us")
           katana Hin Hkey).
Defined.

Lemma X18_witness :
  URLSearchParams_get "keywords"
    (NormalizedQuery (@AndroidKeywordRankHandler_queryParams offline spotify))
  = Some "music".
Proof.
  pose (tool := mkGetTool "appvector_android_keyword_rank"
                  (@AndroidKeywordRankHandler_handle offline)
                  (@AndroidKeywordRankHandler_queryParams offline) "/ranks/android/"
                  "Failed to fetch Android keyword ranks" ["app"; "keywords"]).
  assert (Htool : tool ∈ @get_tools offline)
    by (do 7 apply list_elem_of_further; apply list_elem_of_here).
  assert (Hfield : "keywords" ∈ gt_checked tool)
    by (apply list_elem_of_further, list_elem_of_here).
  exact (@X18_checked_arguments_are_forwarded offline tool "keywords" spotify
           Htool Hfield eq_refl).
Defined.

Lemma X19_witness :
  ("country", "in") ∈ NormalizedQuery (@AppleRankHandler_queryParams offline katana)
  /\ "country" ∈ ["app"; "country"; "start_date"; "end_date"].
Proof.
  pose (tool := mkGetTool "appvector_apple_rank" (@AppleRankHandler_handle offline)
                  (@AppleRankHandler_queryParams offline) "/category/rank/apple/"
                  "Failed to fetch Apple category ranks" ["app"]).
  assert (Htool : tool ∈ @get_tools offline)
    by (apply list_elem_of_further, list_elem_of_here).
  assert (Hschema : (gt_name tool, ["app"; "country"; "start_date"; "end_date"])
                    ∈ schema_properties) by compute_done.
  assert (Hin : ("country", "in")
                ∈ NormalizedQuery (gt_queryParams tool katana))
    by (vm_compute; apply list_elem_of_further, list_elem_of_here).
  split; [ exact Hin | ].
  exact (@X19_query_names_are_declared offline tool _ katana "country" "in"
           Htool Hschema Hin).
Defined.
